(* ===== verification/_CoqProject ===== *)
-Q . S2P
Prelude.v
Torch.v
PyObject.v
Blocks.v
Stage.v
ResNet.v
Forward.v
Callable.v
Depth.v
Script.v
