(* ===== verification/Prelude.v ===== *)
(** * A verification development of DaeunYang/Resnet-Study

    ** The program

    src/resnet-study.py (186 lines) defines the ResNet family of image
    classifiers on top of PyTorch: two residual block classes,
    [BasicBlock] (lines 10-41) and [Bottleneck] (lines 43-81); a network
    class [ResNet] (lines 87-164) whose [__init__] builds a stem, four
    stages with the stage builder [_make_layers] (lines 122-146) and a
    classifier head, and whose [forward] runs them in order; five presets
    [ResNet18] .. [ResNet152] (lines 170-183); and top-level statements
    that build [myneck], [mynet50] and [mynet101]. The parts interact
    through Python objects: [ResNet.__init__] passes a block class to
    [_make_layers], which threads the channel tally [self.inplanes] of the
    network under construction and calls the class to build blocks; a
    forward pass calls each sub-module, which runs the [forward] of its
    class. All numeric work is done by [torch.nn] layers.

    ** How the development models it

    Tensors are modelled by their shapes; the development is a shape-level
    semantics of the script, with every Python exception the code can
    raise as a value of [Result].
    - [Prelude] (this file): exceptions [PyErr], results [Result] and
      their bind [x <- c ;; k], agreement up to fuel [res_le], ordered
      association lists (Python's attribute dictionaries), the hint
      databases [py] and [pyrw], the tactics [py_inv], [rbind_norm]
      (normal form of bind chains by setoid rewriting under binders,
      with the [Proper] instance [rbind_proper]) and [ndiv] (linear
      arithmetic with division by constants), and [star], the
      transition sequences of a step relation.
    - [Torch]: the layers the script constructs ([Prim]: [Conv2d],
      [BatchNorm2d], [ReLU], [MaxPool2d], [AdaptiveAvgPool2d], [Linear]),
      their forward shape contracts and errors ([prim_forward]),
      [torch.flatten(x, 1)] and [out += identity] ([iadd], with
      broadcasting). These are library code, modelled from PyTorch's
      documented behaviour with modules in training mode (the script
      never calls [eval()]). The script's [conv3x3] and [conv1x1] are
      here too.
    - [PyObject]: Python values ([Value]: [None], ints, layers,
      [nn.Sequential], instances of the script's classes with their
      attribute dictionaries, and functions, classes and modules by
      name), attribute reads and writes ([getattr] raises
      [AttributeError]), name resolution in globals then builtins
      ([resolve_name] raises [NameError]) and [nn.Sequential.forward]
      ([seq_forward]).
    - [Blocks]: [BasicBlock_init], [BasicBlock_forward],
      [Bottleneck_init], [Bottleneck_forward], statement by statement;
      the class objects [BasicBlock] and [Bottleneck] as values of the
      record [BlockClass] (class attribute [expansion] and constructor);
      and [BlockLaws], the interface the stage builder relies on
      (instances for both classes).
    - [Stage]: [_make_layers] with its two parts [make_downsample] and
      [append_rest], threading the instance under construction as an
      explicit attribute dictionary; the spec's stage rule as an abstract
      specification ([spec_stage], [abs_block]).
    - [ResNet]: [ResNet_init], [ResNet_forward], the module call
      [call_module] (Python's [m(x)], dispatching on the class), the
      presets, and [script_globals], the module's top level run in order.
    - [Forward]: the forward pass of whole networks. [pipeline] is a
      feed-forward network (modules in order, flatten, classifier);
      [stem] is the stem [ResNet.__init__] builds (lines 103-106),
      [prims_forward] a chain of layers applied directly, and
      [stem_spec] the stem's outcome in closed form.
    - [Callable]: the typing judgement [callable] on values (the
      modules a forward pass may call) and [globals_callable] on the
      globals, with the type-safety theorem of [call_module].
    - [Depth]: the number of weighted layers of every network.
    - [Script]: the module's top level as statements ([Stmt]: imports,
      [def], [class], assignments, bare expressions; the list [script]
      with one definition per part of the file, e.g. [test_myneck] for
      lines 84-85), executed on the globals by [exec], run by the
      function [run_script] and by the small-step relation [step] on
      configurations [Running g ss], [Raised e g], [Done g]. A call
      evaluates the callee, then the arguments, then calls; a preset
      evaluates its body ([preset_body], lines 170-183) at call time.
      [script_globals] of [ResNet] is the same run as one function.

    Forward passes take the module call as an argument ([Caller]);
    [call_module] ties the knot by recursion on a fuel bound on the
    nesting of modules. A network is nested five deep (network, stage,
    block, shortcut, layer), so fuel 5 is enough for every network the
    script builds; the library lemma [call_module_fuel_mono] shows that
    more fuel never changes a result that did not exhaust the bound.
    Because every forward pass of the script's networks raises inside
    its first block, the outcome theorems (C19, C20) are stated for
    every fuel from 4 on (network, stage, block, layer).

    ** What the theorems show

    - The stage builder (C1, C2, C13, C14, C15): [_make_layers] returns
      exactly [block(i, planes, stride)] followed by [n - 1] blocks
      [block(planes * expansion, planes)], all with [downsample=None],
      and sets the tally; its stages chain channel counts; it builds one
      block when asked for none. Against the spec's rule, the stages
      [_make_layers] returns are right on channels and drop the stride
      and the shortcut of the first block (a refinement up to those two
      fields); the shortcut it
      computes has the shape the spec asks for and is never used.
    - The blocks (C3 to C7, C16): [BasicBlock.forward] always raises
      [AttributeError] for [bn2] ([__init__] names it [nb2]);
      [Bottleneck.forward] always raises [NameError] for [conv1] (it uses
      bare names). Had [bn2] been bound, the residual path would be right
      for equal channel counts but would raise on every stage that changes
      channels (no shortcut is passed) and, even with the shortcut, on
      every stride-2 stage (the blocks ignore [stride]).
    - The network (C8 to C12): the module [ResNet.__init__] builds,
      exactly; [IndexError] for fewer than four stage sizes; channel
      consistency from the stem's 64 channels to [fc]; no network ever
      returns from [forward], for every input, globals and fuel.
    - The forward pass end to end (C17 to C21): [ResNet.forward] is the
      pipeline of its modules; the stem maps [N,3,H,W] to
      [N,64,ceil(H/4),ceil(W/4)] (bounds [H <= 4 H' < H + 4]); the exact
      outcome of every [BasicBlock] network and every [Bottleneck]
      network on every batched input, including [ValueError] from batch
      norm on inputs with one value per channel; unbatched images raise
      [ValueError] at [bn1].
    - Types (C22, C23): the networks [ResNet.__init__] builds are
      callable, and callable modules never raise [TypeError], so the
      only errors of a forward pass are those of the layers, attribute
      and name lookups and [flatten].
    - The top level (C25, C26): the script's statements, its tests
      included, run to completion with the globals [script_globals]
      computes, and that end is reached from every configuration the run
      passes through (liveness); every reachable configuration keeps the
      names [Bottleneck.forward] reads unbound (an invariant by rule
      induction), so C22 applies and a [Bottleneck] raises [NameError]
      at every point of the script.
    - [Bottleneck.forward] ignores its own layers (C27): only
      [downsample] of the instance is read; where the globals bind its
      bare names to layers, it is the residual pipeline of those shared
      global layers (C29).
    - The classifier head (C28): [avgpool], [flatten] and [fc] of every
      network meet the spec's head contract, [N,C,H,W] to
      [N,num_classes] exactly when [C = 512 * expansion]; the head is
      right, and the networks fail only in their blocks.
    - Depth (C24): the depth formula [2 + k * sum (max 1 layers[i])] for
      every stage list, with [k = 2] for [BasicBlock] and [k = 3] for
      [Bottleneck].

    ** Not modelled

    The numeric content of tensors (convolution arithmetic, batch-norm
    statistics and running averages, autograd, devices) is PyTorch's and
    out of scope; so are [__repr__] (the bare expression statements
    print nothing in a script) and negative Python integers as sizes
    (every size the script passes is a natural number). A call of a
    builtin function from a forward pass is not modelled beyond its
    [TypeError]: no forward pass of the script reaches one. At the top
    level, calls are modelled for the forms the script uses (a class
    of the script with ints, [ResNet(block, layers[, num_classes])],
    a preset with no arguments); any other call is a [TypeError] of the
    model. Round trips in the sense of encode/decode or parse/print do
    not occur in the program.

    Python integers are unbounded and every size is a natural number,
    so no overflow arises and sizes are [N] throughout. The map covers
    every line of the source but blank lines and the two docstrings
    that label the tests (lines 166 and 185), which have no effect.

    Theorems that other proofs need are library lemmas (for instance
    [make_layers_result], [ResNet_init_attrs]); a numbered theorem is
    applied by no other proof.

    ** Further work

    A [Bottleneck] block with its layers bound as attributes (the
    analogue of C6 and C7) and the output shape the spec promises for
    the repaired network, proved against the same [call_module]; these
    describe code the repository does not contain, and would be stated
    as a separate, clearly marked repair. Parameter counts are left out:
    the script never calls [parameters()]. *)

From stdpp Require Import base list strings sets.
From Stdlib Require Import NArith ZArith Lia.

#[global] Set Warnings "-register-all".

Declare Scope py_scope.
Delimit Scope py_scope with py.

Create HintDb py.
Create Rewrite HintDb pyrw.

(** ** Python exceptions

    The exceptions the script can raise, by their Python class.
    [FuelExhausted] is not a Python exception: it is the result of the
    module dispatcher of [ResNet.v] when its nesting bound is too small,
    and the theorems show the bound they use is enough. *)
Inductive PyErr : Type :=
| AttributeError (cls attr : string)
| NameError (name : string)
| IndexError (what : string)
| TypeError (what : string)
| ValueError (what : string)
| RuntimeError (op what : string)
| FuelExhausted.

#[export] Instance PyErr_eq_dec : EqDecision PyErr.
Proof. solve_decision. Defined.

(** ** Results: a value or a raised exception *)
Inductive Result (A : Type) : Type :=
| Ok (a : A)
| Err (e : PyErr).
Arguments Ok {A} a.
Arguments Err {A} e.

Definition rbind {A B : Type} (m : Result A) (f : A -> Result B) : Result B :=
  match m with
  | Ok a => f a
  | Err e => Err e
  end.

Notation "x <- c ;; k" := (rbind c (fun x => k))
  (at level 100, c at next level, right associativity) : py_scope.

(** [raise_unless b e] is a Python [if not b: raise e]. *)
Definition raise_unless (b : bool) (e : PyErr) : Result unit :=
  if b then Ok tt else Err e.

Definition is_ok {A : Type} (r : Result A) : bool :=
  match r with Ok _ => true | Err _ => false end.

Local Open Scope py_scope.

Lemma rbind_Ok_inv {A B : Type} (m : Result A) (f : A -> Result B) (b : B) :
  rbind m f = Ok b -> exists a, m = Ok a /\ f a = Ok b.
Proof. destruct m as [a|e]; simpl; [eauto | discriminate]. Qed.

Lemma rbind_Err_inv {A B : Type} (m : Result A) (f : A -> Result B) (e : PyErr) :
  rbind m f = Err e -> m = Err e \/ exists a, m = Ok a /\ f a = Err e.
Proof. destruct m as [a|e']; simpl; [eauto | intros [= ->]; auto]. Qed.

Lemma rbind_assoc {A B C : Type} (m : Result A) (f : A -> Result B) (g : B -> Result C) :
  rbind (rbind m f) g = rbind m (fun a => rbind (f a) g).
Proof. by destruct m. Qed.

Lemma rbind_ext {A B : Type} (m : Result A) (f g : A -> Result B) :
  (forall a, m = Ok a -> f a = g a) -> rbind m f = rbind m g.
Proof. destruct m; simpl; auto. Qed.

Lemma raise_unless_Ok (b : bool) (e : PyErr) u :
  raise_unless b e = Ok u <-> b = true.
Proof. destruct b, u; simpl; split; congruence. Qed.

(** A computation that never succeeds stays so under any continuation. *)
Lemma rbind_never_Ok {A B : Type} (m : Result A) (f : A -> Result B) :
  (forall a, m = Ok a -> forall b, f a <> Ok b) -> forall b, rbind m f <> Ok b.
Proof.
  intros H b Hb. apply rbind_Ok_inv in Hb as (a & Ha & Hf). exact (H a Ha b Hf).
Qed.

#[export] Hint Resolve rbind_never_Ok : py.

(** ** Agreement of results up to fuel

    [res_le r1 r2]: [r2] is [r1] unless [r1] ran out of fuel. The module
    dispatcher is monotone in its fuel in this sense. *)
Definition res_le {A : Type} (r1 r2 : Result A) : Prop :=
  r1 <> Err FuelExhausted -> r2 = r1.

Lemma res_le_refl {A : Type} (r : Result A) : res_le r r.
Proof. by intros _. Qed.

Lemma rbind_le {A B : Type} (m1 m2 : Result A) (f1 f2 : A -> Result B) :
  res_le m1 m2 -> (forall a, res_le (f1 a) (f2 a)) ->
  res_le (rbind m1 f1) (rbind m2 f2).
Proof.
  unfold res_le. intros Hm Hf Hne. destruct m1 as [a|e]; simpl in *.
  - rewrite Hm by discriminate. simpl. by apply Hf.
  - rewrite Hm by congruence. done.
Qed.

Lemma res_le_if {A : Type} (c : bool) (a1 a2 b1 b2 : Result A) :
  res_le a1 a2 -> res_le b1 b2 ->
  res_le (if c then a1 else b1) (if c then a2 else b2).
Proof. by destruct c. Qed.

#[export] Hint Resolve res_le_refl rbind_le res_le_if : py.

(** [py_inv] takes apart hypotheses [rbind m f = Ok b] and equalities
    of results. *)
Ltac py_inv :=
  repeat match goal with
  | H : rbind _ _ = Ok _ |- _ =>
      let a := fresh "a" in let Ha := fresh "Ha" in
      apply rbind_Ok_inv in H as (a & Ha & H)
  | H : Ok _ = Ok _ |- _ => injection H as H
  | H : Err _ = Err _ |- _ => injection H as H
  | H : Ok _ = Err _ |- _ => discriminate H
  | H : Err _ = Ok _ |- _ => discriminate H
  | H : raise_unless _ _ = Ok _ |- _ => apply raise_unless_Ok in H
  end; subst.

(** [rbind] respects pointwise equality of continuations, so that
    [setoid_rewrite] normalises chains of binds under binders. *)
#[export] Instance rbind_proper {A B : Type} :
  Proper (eq ==> pointwise_relation A eq ==> eq) (@rbind A B).
Proof. intros m ? <- f g Hfg. apply rbind_ext. intros a _. apply Hfg. Qed.

(** [rbind_norm] puts a chain of binds in right-nested form and
    computes the binds of values already known. *)
Ltac rbind_norm :=
  repeat setoid_rewrite rbind_assoc; cbn [rbind].

(** [ndiv] solves linear goals over [N] with divisions and remainders
    by constants (sizes of convolution and pooling outputs). *)
Ltac ndiv := zify; Z.div_mod_to_equations; lia.

(** ** Transition sequences

    Zero, one or several transitions of a step relation, as in the
    [Sequences] library of the mechanised-semantics course. *)
Section Sequences.
Context {A : Type} (R : A -> A -> Prop).

Inductive star : A -> A -> Prop :=
| star_refl a : star a a
| star_step a b c : R a b -> star b c -> star a c.

Lemma star_one (a b : A) : R a b -> star a b.
Proof. eauto using star. Qed.

Lemma star_trans (a b c : A) : star a b -> star b c -> star a c.
Proof. induction 1; eauto using star. Qed.

(** Absence of transitions from a state. *)
Definition irred (a : A) : Prop := forall b, ~ R a b.

End Sequences.

#[export] Hint Constructors star : py.

(** ** Ordered association lists

    Python's attribute dictionaries ([__dict__] and [nn.Module._modules],
    an [OrderedDict]) and a module's global namespace map names to values,
    keep their keys in insertion order, and assigning an existing key
    replaces its value in place. [alist_set] is that assignment and
    [alist_lookup] the read; keys are compared with [String.eqb], so that
    lookups of literal names compute. *)
Section Alist.
Context {V : Type}.

Fixpoint alist_lookup (l : list (string * V)) (k : string) : option V :=
  match l with
  | [] => None
  | (k', v) :: l' => if String.eqb k k' then Some v else alist_lookup l' k
  end.

Fixpoint alist_set (l : list (string * V)) (k : string) (v : V) : list (string * V) :=
  match l with
  | [] => [(k, v)]
  | (k', v') :: l' =>
      if String.eqb k k' then (k, v) :: l' else (k', v') :: alist_set l' k v
  end.

Lemma alist_lookup_set_eq l k v : alist_lookup (alist_set l k v) k = Some v.
Proof.
  induction l as [|[k' v'] l IH]; simpl; [by rewrite String.eqb_refl|].
  destruct (String.eqb_spec k k'); simpl; [by rewrite String.eqb_refl|].
  by rewrite (proj2 (String.eqb_neq k k')).
Qed.

Lemma alist_lookup_set_ne l k k' v :
  k <> k' -> alist_lookup (alist_set l k v) k' = alist_lookup l k'.
Proof.
  intros Hne. induction l as [|[k0 v0] l IH]; simpl.
  - by rewrite (proj2 (String.eqb_neq k' k)) by congruence.
  - destruct (String.eqb_spec k k0) as [->|Hk0]; simpl.
    + by rewrite (proj2 (String.eqb_neq k' k0)) by congruence.
    + by rewrite IH.
Qed.

(** The keys keep their order; a new key is appended at the end. *)
Lemma alist_set_keys l k v :
  map fst (alist_set l k v) =
    if decide (k ∈ map fst l) then map fst l else map fst l ++ [k].
Proof.
  induction l as [|[k' v'] l IH]; cbn [alist_set map fst].
  - case_decide; [set_solver | done].
  - destruct (String.eqb_spec k k') as [->|Hne]; cbn [map fst].
    + rewrite decide_True by set_solver. done.
    + rewrite IH. repeat case_decide; done || set_solver.
Qed.

Lemma alist_lookup_In l k v : alist_lookup l k = Some v -> In (k, v) l.
Proof.
  induction l as [|[k' v'] l IH]; simpl; [discriminate|].
  destruct (String.eqb_spec k k'); [intros [= <-]; subst; auto | auto].
Qed.
End Alist.

#[export] Hint Rewrite @alist_lookup_set_eq : pyrw.
#[export] Hint Rewrite @alist_lookup_set_ne using congruence : pyrw.
