(* ===== verification/Torch.v ===== *)
(** * Torch: the tensor-shape contract of the torch.nn primitives

    The script builds its networks from six [torch.nn] layers and two
    tensor operations, and delegates all numeric work to them. This file
    models them at the level the script depends on: a tensor is its
    shape ([Shape], a list of dimensions), a layer is the data its
    constructor stores ([Prim]), and a forward pass computes the output
    shape or raises the exception PyTorch raises. The layers are
    library code, not code of the repository: their contract is taken
    from PyTorch's documented behaviour (dilation 1, groups 1,
    [ceil_mode=False], modules in training mode, as after construction).

    The two helpers of the script that build convolutions, [conv3x3] and
    [conv1x1] (src/resnet-study.py lines 4-8), are here too. *)

From stdpp Require Import base list strings.
From Stdlib Require Import NArith Lia.
From S2P Require Import Prelude.

Local Open Scope py_scope.
Local Open Scope N_scope.

(** A tensor, by its shape: [N; C; H; W] for a batch of images. *)
Abbreviation Shape := (list N).

(** The layers of [torch.nn] the script constructs, with the arguments
    their constructors store. *)
Inductive Prim : Type :=
| Conv2d (in_channels out_channels kernel_size stride padding : N) (bias : bool)
| BatchNorm2d (num_features : N)
| ReLU
| MaxPool2d (kernel_size stride padding : N)
| AdaptiveAvgPool2d (out_h out_w : N)
| Linear (in_features out_features : N).

#[export] Instance Prim_eq_dec : EqDecision Prim.
Proof. solve_decision. Defined.

(** [conv3x3(in_planes, out_planes, stride=1, padding=1)]: a 3x3
    convolution with the default bias. *)
Definition conv3x3 (in_planes out_planes stride padding : N) : Prim :=
  Conv2d in_planes out_planes 3 stride padding true.

(** [conv1x1(in_planes, out_planes, stride=1)]: a 1x1 convolution,
    padding 0, with the default bias. *)
Definition conv1x1 (in_planes out_planes stride : N) : Prim :=
  Conv2d in_planes out_planes 1 stride 0 true.

(** Output size of a window of [kernel] sliding with [stride] over
    [size] padded by [padding] on both sides (dilation 1, floor mode):
    [(size + 2 * padding - kernel) / stride + 1]. *)
Definition conv_out (size kernel stride padding : N) : N :=
  (size + 2 * padding - kernel) / stride + 1.

(** ** Forward passes of the primitives *)

Definition conv2d_check (cin k s p c h w : N) : Result unit :=
  _ <- raise_unless (negb (s =? 0))
         (RuntimeError "conv2d" "non-positive stride is not supported") ;;
  _ <- raise_unless (c =? cin)
         (RuntimeError "conv2d" "expected input to have in_channels channels") ;;
  raise_unless ((k <=? h + 2 * p) && (k <=? w + 2 * p))
    (RuntimeError "conv2d" "kernel size can't be greater than actual input size").

(** [nn.Conv2d] accepts a batched [N,C,H,W] or an unbatched [C,H,W] input. *)
Definition conv2d_forward (cin cout k s p : N) (x : Shape) : Result Shape :=
  match x with
  | [n; c; h; w] =>
      _ <- conv2d_check cin k s p c h w ;;
      Ok [n; cout; conv_out h k s p; conv_out w k s p]
  | [c; h; w] =>
      _ <- conv2d_check cin k s p c h w ;;
      Ok [cout; conv_out h k s p; conv_out w k s p]
  | _ => Err (RuntimeError "conv2d" "expected 3D (unbatched) or 4D (batched) input")
  end.

(** [nn.BatchNorm2d] in training mode: a 4D input, more than one value per
    channel ([N * H * W <> 1]), and [C] equal to [num_features]. *)
Definition batchnorm2d_forward (nf : N) (x : Shape) : Result Shape :=
  match x with
  | [n; c; h; w] =>
      _ <- raise_unless (negb (n * h * w =? 1))
             (ValueError "Expected more than 1 value per channel when training") ;;
      _ <- raise_unless (c =? nf)
             (RuntimeError "batch_norm" "running_mean should contain C elements") ;;
      Ok x
  | _ => Err (ValueError "expected 4D input")
  end.

Definition maxpool2d_check (k s p h w : N) : Result unit :=
  _ <- raise_unless (p <=? k / 2)
         (RuntimeError "max_pool2d" "pad should be at most half of effective kernel size") ;;
  _ <- raise_unless (negb (s =? 0))
         (RuntimeError "max_pool2d" "stride should be greater than zero") ;;
  raise_unless ((k <=? h + 2 * p) && (k <=? w + 2 * p))
    (RuntimeError "max_pool2d" "Output size is too small").

Definition maxpool2d_forward (k s p : N) (x : Shape) : Result Shape :=
  match x with
  | [n; c; h; w] =>
      _ <- maxpool2d_check k s p h w ;;
      Ok [n; c; conv_out h k s p; conv_out w k s p]
  | [c; h; w] =>
      _ <- maxpool2d_check k s p h w ;;
      Ok [c; conv_out h k s p; conv_out w k s p]
  | _ => Err (RuntimeError "max_pool2d" "non-empty 3D or 4D input tensor expected")
  end.

(** [nn.AdaptiveAvgPool2d((oh, ow))]: non-zero non-batch sizes. *)
Definition adaptive_avgpool2d_forward (oh ow : N) (x : Shape) : Result Shape :=
  let nonzero c h w := negb (c =? 0) && negb (h =? 0) && negb (w =? 0) in
  match x with
  | [n; c; h; w] =>
      _ <- raise_unless (nonzero c h w)
             (RuntimeError "adaptive_avg_pool2d" "expected non-zero sizes for non-batch dimensions") ;;
      Ok [n; c; oh; ow]
  | [c; h; w] =>
      _ <- raise_unless (nonzero c h w)
             (RuntimeError "adaptive_avg_pool2d" "expected non-zero sizes for non-batch dimensions") ;;
      Ok [c; oh; ow]
  | _ => Err (RuntimeError "adaptive_avg_pool2d" "expected 3D or 4D tensor")
  end.

(** [nn.Linear(in, out)] maps the last dimension [in] to [out]. *)
Definition linear_forward (fin fout : N) (x : Shape) : Result Shape :=
  match last x with
  | None => Err (RuntimeError "linear" "both arguments to linear need to be at least 1D")
  | Some d =>
      _ <- raise_unless (d =? fin)
             (RuntimeError "linear" "mat1 and mat2 shapes cannot be multiplied") ;;
      Ok (removelast x ++ [fout])
  end.

Definition prim_forward (p : Prim) (x : Shape) : Result Shape :=
  match p with
  | Conv2d cin cout k s pd _ => conv2d_forward cin cout k s pd x
  | BatchNorm2d nf => batchnorm2d_forward nf x
  | ReLU => Ok x
  | MaxPool2d k s pd => maxpool2d_forward k s pd x
  | AdaptiveAvgPool2d oh ow => adaptive_avgpool2d_forward oh ow x
  | Linear fin fout => linear_forward fin fout x
  end.

(** [torch.flatten(x, 1)]: keeps dimension 0 and multiplies the rest. *)
Definition flatten1 (x : Shape) : Result Shape :=
  match x with
  | d0 :: (_ :: _) as rest => Ok [d0; foldr N.mul 1 rest]
  | _ => Err (IndexError "Dimension out of range")
  end.

(** In-place addition [out += identity]: [identity] must broadcast to
    the shape of [out], aligning dimensions from the right; a dimension
    of [identity] broadcasts when it equals that of [out] or is 1. *)
Fixpoint bcast_into (o i : list N) : bool :=
  match o, i with
  | _, [] => true
  | [], _ :: _ => false
  | a :: o', b :: i' => ((b =? a) || (b =? 1)) && bcast_into o' i'
  end.

Definition iadd (out identity : Shape) : Result Shape :=
  _ <- raise_unless (bcast_into (rev out) (rev identity))
         (RuntimeError "add_" "the size of tensor a must match the size of tensor b") ;;
  Ok out.

(** ** Lemmas on the primitives shared by the components *)

Lemma conv_out_3x3_same (h : N) : 1 <= h -> conv_out h 3 1 1 = h.
Proof. intros. unfold conv_out. rewrite N.div_1_r. lia. Qed.

Lemma conv_out_1x1_same (h : N) : 1 <= h -> conv_out h 1 1 0 = h.
Proof. intros. unfold conv_out. rewrite N.div_1_r. lia. Qed.

Lemma conv_out_pos (size k s p : N) : 1 <= conv_out size k s p.
Proof. unfold conv_out. apply N.le_add_l. Qed.

(** A 1x1 window with stride 2 shrinks every size from 3 on, to a size
    other than 1. *)
Lemma conv_out_1x1_stride2 (h : N) : 3 <= h -> conv_out h 1 2 0 <> h /\ conv_out h 1 2 0 <> 1.
Proof.
  intros Hh. unfold conv_out.
  pose proof (N.div_mod (h + 2 * 0 - 1) 2 ltac:(lia)) as E.
  pose proof (N.mod_lt (h + 2 * 0 - 1) 2 ltac:(lia)) as M.
  set (q := (h + 2 * 0 - 1) / 2) in *. set (r := (h + 2 * 0 - 1) mod 2) in *. lia.
Qed.

Lemma conv2d_forward_4d (cin cout k s p n c h w : N) :
  s <> 0 -> c = cin -> k <= h + 2 * p -> k <= w + 2 * p ->
  conv2d_forward cin cout k s p [n; c; h; w]
  = Ok [n; cout; conv_out h k s p; conv_out w k s p].
Proof.
  intros Hs Hc Hh Hw. unfold conv2d_forward, conv2d_check.
  rewrite (proj2 (N.eqb_neq s 0) Hs), (proj2 (N.eqb_eq c cin) Hc).
  rewrite (proj2 (N.leb_le _ _) Hh), (proj2 (N.leb_le _ _) Hw). reflexivity.
Qed.

(** A 3x3 convolution with stride 1 and padding 1 keeps [H] and [W]. *)
Lemma conv3x3_same (cin cout n h w : N) :
  1 <= h -> 1 <= w ->
  prim_forward (conv3x3 cin cout 1 1) [n; cin; h; w] = Ok [n; cout; h; w].
Proof.
  intros Hh Hw. unfold conv3x3, conv1x1; cbn [prim_forward].
  rewrite conv2d_forward_4d by lia.
  by rewrite !conv_out_3x3_same.
Qed.

Lemma conv1x1_same (cin cout n h w : N) :
  1 <= h -> 1 <= w ->
  prim_forward (conv1x1 cin cout 1) [n; cin; h; w] = Ok [n; cout; h; w].
Proof.
  intros Hh Hw. unfold conv3x3, conv1x1; cbn [prim_forward].
  rewrite conv2d_forward_4d by lia.
  by rewrite !conv_out_1x1_same.
Qed.

Lemma batchnorm2d_forward_ok (nf n c h w : N) :
  n * h * w <> 1 -> c = nf -> batchnorm2d_forward nf [n; c; h; w] = Ok [n; c; h; w].
Proof.
  intros Hb Hc. unfold batchnorm2d_forward.
  rewrite (proj2 (N.eqb_neq _ _) Hb), (proj2 (N.eqb_eq _ _) Hc). reflexivity.
Qed.

Lemma bcast_into_refl (l : list N) : bcast_into l l = true.
Proof. induction l; simpl; [done|]. by rewrite N.eqb_refl, IHl. Qed.

Lemma iadd_same (x : Shape) : iadd x x = Ok x.
Proof. unfold iadd. by rewrite bcast_into_refl. Qed.

(** Adding a 4D identity whose channel count differs from that of
    [out] and is not 1 raises. *)
Lemma iadd_channel_mismatch (n c h w n' c' h' w' : N) :
  c' <> c -> c' <> 1 -> iadd [n; c; h; w] [n'; c'; h'; w'] = Err
    (RuntimeError "add_" "the size of tensor a must match the size of tensor b").
Proof.
  intros Hc H1. unfold iadd. simpl.
  rewrite (proj2 (N.eqb_neq c' c) Hc), (proj2 (N.eqb_neq c' 1) H1).
  by rewrite !andb_false_r.
Qed.

(** Adding a 4D identity whose height differs from that of [out] and
    is not 1 raises. *)
Lemma iadd_height_mismatch (n c h w n' c' h' w' : N) :
  h' <> h -> h' <> 1 -> iadd [n; c; h; w] [n'; c'; h'; w'] = Err
    (RuntimeError "add_" "the size of tensor a must match the size of tensor b").
Proof.
  intros Hh H1. unfold iadd. simpl.
  rewrite (proj2 (N.eqb_neq h' h) Hh), (proj2 (N.eqb_neq h' 1) H1).
  by rewrite !andb_false_r.
Qed.

(** The errors the layers raise: [RuntimeError] and [ValueError]. *)
Definition layer_error (e : PyErr) : Prop :=
  match e with RuntimeError _ _ | ValueError _ => True | _ => False end.

Lemma prim_forward_error (p : Prim) (x : Shape) (e : PyErr) :
  prim_forward p x = Err e -> layer_error e.
Proof.
  destruct p; cbn [prim_forward];
    unfold conv2d_forward, conv2d_check, batchnorm2d_forward, maxpool2d_forward,
      maxpool2d_check, adaptive_avgpool2d_forward, linear_forward, raise_unless;
    repeat (case_match; cbn [rbind]); try discriminate; intros [= <-]; exact I.
Qed.

Lemma iadd_error (out identity : Shape) (e : PyErr) :
  iadd out identity = Err e -> layer_error e.
Proof. unfold iadd, raise_unless. case_match; cbn; [discriminate|]. intros [= <-]. exact I. Qed.

#[export] Hint Rewrite conv3x3_same conv1x1_same using lia : pyrw.
#[export] Hint Rewrite iadd_same : pyrw.
