(* ===== verification/PyObject.v ===== *)
(** * PyObject: the Python objects the script builds and looks up

    The script's networks are Python objects: instances of its classes
    [BasicBlock], [Bottleneck] and [ResNet], whose attributes are set in
    [__init__] and read in [forward]; [nn.Sequential] containers; the
    [torch.nn] layers of [Torch.v]; and plain values ([None], ints).
    [Value] is that universe. An instance keeps its attributes in an
    ordered dictionary ([Attrs]); [getattr] is an attribute read
    [self.name], which raises [AttributeError] for a missing name, and
    [setattr] an assignment [self.name = v]. A bare name in a function
    body is resolved in the module's globals and then in the builtins
    ([resolve_name]), and raises [NameError] when neither binds it.

    [seq_forward] is [nn.Sequential.forward]: it feeds the input through
    its modules in order. Like every forward pass of the development it
    takes the module call [call] as an argument, and [ResNet.v] ties the
    knot. *)

From stdpp Require Import base list strings sets.
From Stdlib Require Import NArith Lia.
From S2P Require Import Prelude Torch.

Local Open Scope py_scope.
Local Open Scope string_scope.

(** The classes the script defines. *)
Inductive ClsTag : Type :=
| BasicBlockT
| BottleneckT
| ResNetT.

#[export] Instance ClsTag_eq_dec : EqDecision ClsTag.
Proof. solve_decision. Defined.

Definition cls_name (c : ClsTag) : string :=
  match c with
  | BasicBlockT => "BasicBlock"
  | BottleneckT => "Bottleneck"
  | ResNetT => "ResNet"
  end.

(** A Python value of the script. [VFun] is a function, class or Python
    module object bound in the globals, by its name. *)
Inductive Value : Type :=
| VNone
| VInt (n : N)
| VPrim (p : Prim)
| VSeq (mods : list Value)
| VObj (cls : ClsTag) (attrs : list (string * Value))
| VFun (name : string).

Abbreviation Attrs := (list (string * Value)).

(** [self.name] on an instance of class [cls]. *)
Definition getattr (cls : ClsTag) (self : Attrs) (name : string) : Result Value :=
  match alist_lookup self name with
  | Some v => Ok v
  | None => Err (AttributeError (cls_name cls) name)
  end.

(** [self.name = v]. *)
Definition setattr (self : Attrs) (name : string) (v : Value) : Attrs :=
  alist_set self name v.

(** [self.name] where the code uses the value as an int. *)
Definition getattr_int (cls : ClsTag) (self : Attrs) (name : string) : Result N :=
  v <- getattr cls self name ;;
  match v with
  | VInt n => Ok n
  | _ => Err (TypeError "unsupported operand type")
  end.

(** [v != None] *)
Definition is_not_none (v : Value) : bool :=
  match v with VNone => false | _ => true end.

(** The names of Python's builtin functions. *)
Definition builtins : list string :=
  ["abs"; "aiter"; "all"; "anext"; "any"; "ascii"; "bin"; "bool";
   "breakpoint"; "bytearray"; "bytes"; "callable"; "chr"; "classmethod";
   "compile"; "complex"; "delattr"; "dict"; "dir"; "divmod"; "enumerate";
   "eval"; "exec"; "filter"; "float"; "format"; "frozenset"; "getattr";
   "globals"; "hasattr"; "hash"; "help"; "hex"; "id"; "input"; "int";
   "isinstance"; "issubclass"; "iter"; "len"; "list"; "locals"; "map";
   "max"; "memoryview"; "min"; "next"; "object"; "oct"; "open"; "ord";
   "pow"; "print"; "property"; "range"; "repr"; "reversed"; "round";
   "set"; "setattr"; "slice"; "sorted"; "staticmethod"; "str"; "sum";
   "super"; "tuple"; "type"; "vars"; "zip"; "__import__"].

(** Whether a namespace binds [name]. *)
Definition binds (g : Attrs) (name : string) : bool :=
  existsb (fun kv => String.eqb name kv.1) g.

(** A bare name read inside a function of the module: globals first,
    then builtins. *)
Definition resolve_name (globals : Attrs) (name : string) : Result Value :=
  match alist_lookup globals name with
  | Some v => Ok v
  | None =>
      if existsb (String.eqb name) builtins then Ok (VFun name) else Err (NameError name)
  end.

(** A module call [m(x)], on shapes. *)
Abbreviation Caller := (Value -> Shape -> Result Shape).

(** [nn.Sequential.forward]: [for module in self: input = module(input)]. *)
Fixpoint seq_forward (call : Caller) (mods : list Value) (x : Shape) : Result Shape :=
  match mods with
  | [] => Ok x
  | m :: ms => y <- call m x ;; seq_forward call ms y
  end.

(** ** Lemmas *)

Lemma getattr_set_eq (cls : ClsTag) (self : Attrs) (k : string) (v : Value) :
  getattr cls (setattr self k v) k = Ok v.
Proof. unfold getattr, setattr. by rewrite alist_lookup_set_eq. Qed.

Lemma getattr_set_ne (cls : ClsTag) (self : Attrs) (k k' : string) (v : Value) :
  k <> k' -> getattr cls (setattr self k v) k' = getattr cls self k'.
Proof. intros. unfold getattr, setattr. by rewrite alist_lookup_set_ne. Qed.

Lemma getattr_missing (cls : ClsTag) (self : Attrs) (k : string) :
  k ∉ map fst self -> getattr cls self k = Err (AttributeError (cls_name cls) k).
Proof.
  intros Hk. unfold getattr. destruct (alist_lookup self k) as [v|] eqn:E; [|done].
  apply alist_lookup_In in E. exfalso. apply Hk.
  apply list_elem_of_In, in_map_iff. by exists (k, v).
Qed.

Lemma binds_lookup (g : Attrs) (name : string) :
  binds g name = false -> alist_lookup g name = None.
Proof.
  induction g as [|[k v] g IH]; simpl; [done|].
  intros [Hk Hg]%orb_false_iff. by rewrite Hk, IH.
Qed.

(** Assigning [k] binds [k] and keeps every other binding. *)
Lemma binds_alist_set (g : Attrs) (k nm : string) (v : Value) :
  binds (alist_set g k v) nm = binds g nm || String.eqb nm k.
Proof.
  induction g as [|[k' v'] g IH]; cbn [alist_set binds existsb fst]; [by rewrite orb_false_r|].
  destruct (String.eqb_spec k k') as [->|Hk]; cbn [existsb fst].
  - by destruct (String.eqb nm k'), (existsb _ g).
  - unfold binds in IH. rewrite IH. by destruct (String.eqb nm k'), (existsb _ g), (String.eqb nm k).
Qed.

(** A name bound neither in the globals nor among the builtins raises
    [NameError]. *)
Lemma resolve_name_unbound (g : Attrs) (name : string) :
  binds g name = false -> existsb (String.eqb name) builtins = false ->
  resolve_name g name = Err (NameError name).
Proof. intros Hg Hb. unfold resolve_name. by rewrite binds_lookup, Hb. Qed.

Lemma seq_forward_app (call : Caller) (ms1 ms2 : list Value) (x : Shape) :
  seq_forward call (ms1 ++ ms2) x = (y <- seq_forward call ms1 x ;; seq_forward call ms2 y).
Proof.
  revert x. induction ms1 as [|m ms IH]; intros x; simpl; [done|].
  rewrite rbind_assoc. apply rbind_ext. intros y _. apply IH.
Qed.

(** [seq_forward] agrees for two callers that agree up to fuel. *)
Lemma seq_forward_le (c1 c2 : Caller) (mods : list Value) (x : Shape) :
  (forall v y, res_le (c1 v y) (c2 v y)) ->
  res_le (seq_forward c1 mods x) (seq_forward c2 mods x).
Proof. intros Hc. revert x. induction mods; simpl; auto with py. Qed.

#[export] Hint Resolve seq_forward_le : py.
#[export] Hint Rewrite getattr_set_eq : pyrw.
#[export] Hint Rewrite getattr_set_ne using discriminate : pyrw.
