(* ===== verification/Blocks.v ===== *)
(** * Blocks: the residual blocks [BasicBlock] and [Bottleneck]

    src/resnet-study.py lines 10-81. [BasicBlock_init] and
    [Bottleneck_init] are the two [__init__] methods: each builds the
    instance's attribute dictionary in the order of its assignments.
    [BasicBlock_forward] and [Bottleneck_forward] are the two [forward]
    methods, statement by statement, over an arbitrary module call
    [call]; [Bottleneck_forward] also takes the module's globals, since
    its body reads bare names ([conv1], [bn1], ...) instead of
    attributes.

    A block class is passed to [ResNet] as a first-class value; the
    record [BlockClass] is that class object (its [expansion] class
    attribute and its constructor), and the class [BlockLaws] is the
    interface the stage builder of [Stage.v] relies on. [BasicBlock] and
    [Bottleneck] are its two instances. *)

From stdpp Require Import base list strings sets.
From Stdlib Require Import NArith Lia.
From S2P Require Import Prelude Torch PyObject.

Local Open Scope py_scope.
Local Open Scope string_scope.

(** ** BasicBlock (lines 10-41) *)

(** [BasicBlock.__init__(self, in_planes, out_planes, stride=1,
    downsample=None)]; [stride] is accepted and not used. *)
Definition BasicBlock_init (in_planes out_planes stride : N) (downsample : Value) : Value :=
  let self := [] in
  let self := setattr self "conv1" (VPrim (conv3x3 in_planes out_planes 1 1)) in
  let self := setattr self "bn1" (VPrim (BatchNorm2d out_planes)) in
  let self := setattr self "conv2" (VPrim (conv3x3 out_planes out_planes 1 1)) in
  let self := setattr self "nb2" (VPrim (BatchNorm2d out_planes)) in
  let self := setattr self "downsample" downsample in
  let self := setattr self "relu" (VPrim ReLU) in
  VObj BasicBlockT self.

(** [BasicBlock.forward(self, x)]. *)
Definition BasicBlock_forward (call : Caller) (self : Attrs) (x : Shape) : Result Shape :=
  let identity := x in
  m <- getattr BasicBlockT self "conv1" ;; out <- call m x ;;
  m <- getattr BasicBlockT self "bn1" ;; out <- call m out ;;
  m <- getattr BasicBlockT self "relu" ;; out <- call m out ;;
  m <- getattr BasicBlockT self "conv2" ;; out <- call m out ;;
  m <- getattr BasicBlockT self "bn2" ;; out <- call m out ;;
  ds <- getattr BasicBlockT self "downsample" ;;
  identity <- (if is_not_none ds then call ds x else Ok identity) ;;
  out <- iadd out identity ;;
  m <- getattr BasicBlockT self "relu" ;; call m out.

(** ** Bottleneck (lines 43-81) *)

(** The class attribute [Bottleneck.expansion]. *)
Definition Bottleneck_expansion : N := 4.

(** [Bottleneck.__init__(self, in_planes, planes, stride=1,
    downsample=None)]; [stride] is accepted and not used. *)
Definition Bottleneck_init (in_planes planes stride : N) (downsample : Value) : Value :=
  let self := [] in
  let self := setattr self "conv1" (VPrim (conv1x1 in_planes planes 1)) in
  let self := setattr self "bn1" (VPrim (BatchNorm2d planes)) in
  let self := setattr self "conv2" (VPrim (conv3x3 planes planes 1 1)) in
  let self := setattr self "bn2" (VPrim (BatchNorm2d planes)) in
  let self := setattr self "conv3"
                (VPrim (conv1x1 planes (planes * Bottleneck_expansion) 1)) in
  let self := setattr self "bn3" (VPrim (BatchNorm2d (planes * Bottleneck_expansion))) in
  let self := setattr self "downsample" downsample in
  let self := setattr self "relu" (VPrim ReLU) in
  VObj BottleneckT self.

(** [Bottleneck.forward(self, x)]: the layers are read as bare names,
    resolved in the globals [g] of the module. *)
Definition Bottleneck_forward (call : Caller) (g : Attrs) (self : Attrs) (x : Shape)
  : Result Shape :=
  let identity := x in
  m <- resolve_name g "conv1" ;; out <- call m x ;;
  m <- resolve_name g "bn1" ;; out <- call m out ;;
  m <- resolve_name g "relu" ;; out <- call m out ;;
  m <- resolve_name g "conv2" ;; out <- call m out ;;
  m <- resolve_name g "bn2" ;; out <- call m out ;;
  m <- resolve_name g "relu" ;; out <- call m out ;;
  m <- resolve_name g "conv3" ;; out <- call m out ;;
  m <- resolve_name g "bn3" ;; out <- call m out ;;
  ds <- getattr BottleneckT self "downsample" ;;
  identity <- (if is_not_none ds then call ds x else Ok identity) ;;
  out <- iadd out identity ;;
  m <- resolve_name g "relu" ;; call m out.

(** ** Block classes as values *)

(** A block class as [ResNet] uses it: [block.expansion] and
    [block(in_planes, planes, stride, downsample)]. *)
Record BlockClass : Type := {
  bc_tag : ClsTag;
  expansion : N;
  bc_new : N -> N -> N -> Value -> Value
}.

Definition BasicBlock : BlockClass :=
  {| bc_tag := BasicBlockT; expansion := 1; bc_new := BasicBlock_init |}.

Definition Bottleneck : BlockClass :=
  {| bc_tag := BottleneckT; expansion := Bottleneck_expansion; bc_new := Bottleneck_init |}.

(** ** Observations on a block instance *)

Definition obj_attrs (v : Value) : Attrs :=
  match v with VObj _ a => a | _ => [] end.

(** The convolutions of an instance's main path: its [Conv2d]
    attributes other than [downsample], in order. *)
Definition block_convs (v : Value) : list Prim :=
  omap (fun kv => if String.eqb kv.1 "downsample" then None else
                  match kv.2 with
                  | VPrim (Conv2d _ _ _ _ _ _ as p) => Some p
                  | _ => None
                  end) (obj_attrs v).

Definition conv_in (p : Prim) : option N :=
  match p with Conv2d cin _ _ _ _ _ => Some cin | _ => None end.
Definition conv_outc (p : Prim) : option N :=
  match p with Conv2d _ cout _ _ _ _ => Some cout | _ => None end.
Definition conv_stride (p : Prim) : option N :=
  match p with Conv2d _ _ _ s _ _ => Some s | _ => None end.

(** Channels into the main path (first convolution) and out of it
    (last convolution). *)
Definition block_in (v : Value) : option N := head (block_convs v) ≫= conv_in.
Definition block_out (v : Value) : option N := last (block_convs v) ≫= conv_outc.

(** The interface a block class offers to the stage builder. *)
Class BlockLaws (b : BlockClass) : Prop := {
  new_tag : forall i p s d, exists a, bc_new b i p s d = VObj (bc_tag b) a;
  new_in : forall i p s d, block_in (bc_new b i p s d) = Some i;
  new_out : forall i p s d, block_out (bc_new b i p s d) = Some (p * expansion b)%N;
  new_downsample : forall i p s d,
    alist_lookup (obj_attrs (bc_new b i p s d)) "downsample" = Some d;
  new_strides : forall i p s d,
    Forall (fun c => conv_stride c = Some 1%N) (block_convs (bc_new b i p s d))
}.

(** Computes an instance's attributes and the observations on them. *)
Ltac block_simpl :=
  simpl in *;
  unfold BasicBlock_init, Bottleneck_init, block_in, block_out, block_convs,
    conv3x3, conv1x1 in *; simpl in *.

#[export] Instance BasicBlock_laws : BlockLaws BasicBlock.
Proof.
  split; intros; cbn [expansion BasicBlock]; rewrite ?N.mul_1_r; block_simpl;
    [eexists; reflexivity | done | done | done | repeat constructor].
Qed.

#[export] Instance Bottleneck_laws : BlockLaws Bottleneck.
Proof.
  split; intros; block_simpl;
    [eexists; reflexivity | done | done | done | repeat constructor].
Qed.

(** ** Forward passes of the blocks *)

(** Both forward passes agree for two callers that agree up to fuel. *)
Lemma BasicBlock_forward_le (c1 c2 : Caller) (self : Attrs) (x : Shape) :
  (forall v y, res_le (c1 v y) (c2 v y)) ->
  res_le (BasicBlock_forward c1 self x) (BasicBlock_forward c2 self x).
Proof. intros Hc. unfold BasicBlock_forward. auto 30 with py. Qed.

Lemma Bottleneck_forward_le (c1 c2 : Caller) (g self : Attrs) (x : Shape) :
  (forall v y, res_le (c1 v y) (c2 v y)) ->
  res_le (Bottleneck_forward c1 g self x) (Bottleneck_forward c2 g self x).
Proof. intros Hc. unfold Bottleneck_forward. auto 60 with py. Qed.

#[export] Hint Resolve BasicBlock_forward_le Bottleneck_forward_le : py.

Section BlockForward.
Context (call : Caller).

(** [BasicBlock.forward] on an instance [__init__] builds, step by step. *)
Lemma BasicBlock_forward_layers (in_planes out_planes stride : N) (ds : Value) (x : Shape) :
  BasicBlock_forward call (obj_attrs (BasicBlock_init in_planes out_planes stride ds)) x =
    (out <- call (VPrim (conv3x3 in_planes out_planes 1 1)) x ;;
     out <- call (VPrim (BatchNorm2d out_planes)) out ;;
     out <- call (VPrim ReLU) out ;;
     out <- call (VPrim (conv3x3 out_planes out_planes 1 1)) out ;;
     Err (AttributeError "BasicBlock" "bn2")).
Proof. reflexivity. Qed.

(** C3. [BasicBlock.forward] reads [self.bn2], but [__init__] binds the
    second batch norm as [self.nb2] (line 20): whatever the module call
    and the input, the forward pass runs [conv1], [bn1], [relu] and
    [conv2] and then raises [AttributeError: 'BasicBlock' object has no
    attribute 'bn2'], before the residual addition. *)
Theorem BasicBlock_forward_raises (in_planes out_planes stride : N) (ds : Value) (x : Shape) :
  BasicBlock_forward call (obj_attrs (BasicBlock_init in_planes out_planes stride ds)) x =
    (out <- call (VPrim (conv3x3 in_planes out_planes 1 1)) x ;;
     out <- call (VPrim (BatchNorm2d out_planes)) out ;;
     out <- call (VPrim ReLU) out ;;
     out <- call (VPrim (conv3x3 out_planes out_planes 1 1)) out ;;
     Err (AttributeError "BasicBlock" "bn2")).
Proof. apply BasicBlock_forward_layers. Qed.

(** [Bottleneck.forward] where [conv1] is unbound. *)
Lemma Bottleneck_forward_unbound (g self : Attrs) (x : Shape) :
  binds g "conv1" = false ->
  Bottleneck_forward call g self x = Err (NameError "conv1").
Proof.
  intros Hg. unfold Bottleneck_forward.
  by rewrite resolve_name_unbound.
Qed.

(** C4. [Bottleneck.forward] calls the bare names [conv1], [bn1], ...
    (lines 64-79) instead of the attributes [self.conv1], ...: in any
    global namespace that does not bind [conv1], the first statement
    raises [NameError: name 'conv1' is not defined], for every instance
    and every input. *)
Theorem Bottleneck_forward_NameError (g self : Attrs) (x : Shape) :
  binds g "conv1" = false ->
  Bottleneck_forward call g self x = Err (NameError "conv1").
Proof. apply Bottleneck_forward_unbound. Qed.

(** C27. [Bottleneck.forward] never reads its own layers: the layers
    [__init__] builds (lines 48-57) are dead, and two instances with the
    same [downsample] give the same result in every module, for every
    input and module call, whatever else their attributes hold. *)
Theorem Bottleneck_forward_ignores_layers (g a1 a2 : Attrs) (x : Shape) :
  getattr BottleneckT a1 "downsample" = getattr BottleneckT a2 "downsample" ->
  Bottleneck_forward call g a1 x = Bottleneck_forward call g a2 x.
Proof. intros H. unfold Bottleneck_forward. by rewrite H. Qed.

(** Hence a [BasicBlock] built by [__init__] never returns from
    [forward]. *)
Lemma BasicBlock_forward_never_ok (in_planes out_planes stride : N) (ds : Value) (x y : Shape) :
  BasicBlock_forward call (obj_attrs (BasicBlock_init in_planes out_planes stride ds)) x <> Ok y.
Proof.
  rewrite BasicBlock_forward_layers.
  do 4 (apply rbind_never_Ok; intros ? _). discriminate.
Qed.
End BlockForward.

Section BlockShapes.
Context (call : Caller).
Hypothesis call_prim : forall p y, call (VPrim p) y = prim_forward p y.

(** One step of a forward pass over a primitive layer on a
    well-formed 4D input. *)
Ltac prim_step :=
  rewrite ?call_prim; cbn [prim_forward];
  rewrite ?conv3x3_same, ?conv1x1_same by lia;
  rewrite ?batchnorm2d_forward_ok by (try lia; done);
  cbn [rbind].

(** Computes the attribute reads of a [BasicBlock] forward pass and runs
    its five layers up to the residual addition. *)
Ltac basic_forward_steps :=
  unfold BasicBlock_forward, BasicBlock_init, setattr, getattr; simpl;
  do 5 prim_step.

(** C5. On a batch [N, in_planes, H, W] with [H, W >= 1] and more than
    one value per channel, the four layers before [self.bn2] succeed
    and [BasicBlock.forward] raises exactly the [AttributeError] for
    [bn2]. *)
Theorem BasicBlock_forward_bn2_error (in_planes out_planes stride n h w : N) (ds : Value) :
  (1 <= h)%N -> (1 <= w)%N -> (n * h * w <> 1)%N ->
  BasicBlock_forward call (obj_attrs (BasicBlock_init in_planes out_planes stride ds))
    [n; in_planes; h; w]
  = Err (AttributeError "BasicBlock" "bn2").
Proof.
  intros Hh Hw Hb. rewrite BasicBlock_forward_layers.
  do 4 prim_step. reflexivity.
Qed.

(** The main path as [forward] is written, on a block that has the
    attribute [bn2] it reads: the five layers keep [H] and [W] and map
    [in_planes] to [out_planes] channels, then the shortcut (if any)
    is applied to the input and added. *)
Lemma BasicBlock_forward_main (in_planes out_planes stride n h w : N) (ds : Value) :
  (1 <= h)%N -> (1 <= w)%N -> (n * h * w <> 1)%N ->
  BasicBlock_forward call
    (setattr (obj_attrs (BasicBlock_init in_planes out_planes stride ds)) "bn2"
       (VPrim (BatchNorm2d out_planes)))
    [n; in_planes; h; w]
  = (identity <- (if is_not_none ds then call ds [n; in_planes; h; w]
                  else Ok [n; in_planes; h; w]) ;;
     out <- iadd [n; out_planes; h; w] identity ;;
     call (VPrim ReLU) out).
Proof. intros Hh Hw Hb. basic_forward_steps. reflexivity. Qed.

(** C6. The residual path as the forward pass is written: if the block
    had the attribute [bn2] it reads, with no shortcut and as many
    input as output channels, [forward] maps [N, C, H, W] to itself. *)
Theorem BasicBlock_forward_residual (c stride n h w : N) :
  (1 <= h)%N -> (1 <= w)%N -> (n * h * w <> 1)%N ->
  BasicBlock_forward call
    (setattr (obj_attrs (BasicBlock_init c c stride VNone)) "bn2" (VPrim (BatchNorm2d c)))
    [n; c; h; w]
  = Ok [n; c; h; w].
Proof.
  intros Hh Hw Hb. rewrite BasicBlock_forward_main by done. cbn [is_not_none rbind].
  rewrite iadd_same. cbn [rbind]. by rewrite call_prim.
Qed.

(** C7. The shortcut [_make_layers] computes is never passed to the
    block (see [Stage.v]), so a block whose input and output channel
    counts differ has [downsample = None]: if it had the attribute
    [bn2], the residual addition [out += identity] would raise, since
    [identity] still has [in_planes] channels. *)
Theorem BasicBlock_forward_no_shortcut (in_planes out_planes stride n h w : N) :
  (1 <= h)%N -> (1 <= w)%N -> (n * h * w <> 1)%N ->
  in_planes <> out_planes -> in_planes <> 1%N ->
  BasicBlock_forward call
    (setattr (obj_attrs (BasicBlock_init in_planes out_planes stride VNone)) "bn2"
       (VPrim (BatchNorm2d out_planes)))
    [n; in_planes; h; w]
  = Err (RuntimeError "add_" "the size of tensor a must match the size of tensor b").
Proof.
  intros Hh Hw Hb Hio Hi1. rewrite BasicBlock_forward_main by done. cbn [is_not_none rbind].
  by rewrite iadd_channel_mismatch.
Qed.
End BlockShapes.

(** ** Witnesses

    The caller [fun v y => match v with VPrim p => prim_forward p y | _ => Ok y end]
    runs the primitive layers, as [call_module] of [ResNet.v] does. *)

Lemma Bottleneck_forward_NameError_witness :
  Bottleneck_forward (fun _ y => Ok y) [] (obj_attrs (Bottleneck_init 64 64 1 VNone))
    [1; 64; 56; 56]%N = Err (NameError "conv1").
Proof. apply Bottleneck_forward_NameError. reflexivity. Defined.

Lemma BasicBlock_forward_bn2_error_witness :
  BasicBlock_forward (fun v y => match v with VPrim p => prim_forward p y | _ => Ok y end)
    (obj_attrs (BasicBlock_init 64 64 1 VNone)) [1; 64; 56; 56]%N
  = Err (AttributeError "BasicBlock" "bn2").
Proof. apply BasicBlock_forward_bn2_error; [intros; reflexivity | lia | lia | lia]. Defined.

Lemma BasicBlock_forward_residual_witness :
  BasicBlock_forward (fun v y => match v with VPrim p => prim_forward p y | _ => Ok y end)
    (setattr (obj_attrs (BasicBlock_init 64 64 1 VNone)) "bn2" (VPrim (BatchNorm2d 64)))
    [1; 64; 56; 56]%N
  = Ok [1; 64; 56; 56]%N.
Proof. apply BasicBlock_forward_residual; [intros; reflexivity | lia | lia | lia]. Defined.

Lemma BasicBlock_forward_no_shortcut_witness :
  BasicBlock_forward (fun v y => match v with VPrim p => prim_forward p y | _ => Ok y end)
    (setattr (obj_attrs (BasicBlock_init 64 128 2 VNone)) "bn2" (VPrim (BatchNorm2d 128)))
    [1; 64; 56; 56]%N
  = Err (RuntimeError "add_" "the size of tensor a must match the size of tensor b").
Proof. apply BasicBlock_forward_no_shortcut; [intros; reflexivity | lia ..]. Defined.

Lemma Bottleneck_forward_ignores_layers_witness :
  Bottleneck_forward (fun _ y => Ok y) [] (obj_attrs (Bottleneck_init 64 64 1 VNone)) [1; 64; 56; 56]%N
  = Bottleneck_forward (fun _ y => Ok y) [] (obj_attrs (Bottleneck_init 256 512 2 VNone)) [1; 64; 56; 56]%N.
Proof. apply Bottleneck_forward_ignores_layers. reflexivity. Defined.
