(* ===== verification/Stage.v ===== *)
(** * Stage: the stage builder [ResNet._make_layers]

    src/resnet-study.py lines 119-146. [_make_layers] reads the running
    channel tally [self.inplanes] of the [ResNet] under construction,
    computes a shortcut projection ([make_downsample], lines 125-130),
    builds the first block with the stage's stride, sets
    [self.inplanes = planes * block.expansion], and appends
    [num_of_blocks - 1] further blocks ([append_rest], lines 142-143).
    The instance under construction is passed explicitly as its
    attribute dictionary and returned updated.

    The theorems are proved for any block class that satisfies the
    interface [BlockLaws] of [Blocks.v]. *)

From stdpp Require Import base list strings sets.
From Stdlib Require Import NArith Lia.
From S2P Require Import Prelude Torch PyObject Blocks.

Local Open Scope py_scope.
Local Open Scope string_scope.

(** Lines 125-130: [downsample = None], replaced by a 1x1 convolution
    with the stage's stride and a batch norm when the stride is not 1
    or the running channel count differs from [planes * expansion]. *)
Definition make_downsample (block : BlockClass) (inplanes planes stride : N) : Value :=
  if negb (stride =? 1)%N || negb (inplanes =? planes * expansion block)%N then
    VSeq [VPrim (conv1x1 inplanes (planes * expansion block) stride);
          VPrim (BatchNorm2d (planes * expansion block))]
  else VNone.

(** Lines 142-143: [for _ in range(1, num_of_blocks):
    layers.append(block(self.inplanes, planes))], [k] iterations. *)
Fixpoint append_rest (block : BlockClass) (planes : N) (k : nat) (self : Attrs)
    (layers : list Value) : Result (list Value) :=
  match k with
  | O => Ok layers
  | S k' =>
      inplanes <- getattr_int ResNetT self "inplanes" ;;
      append_rest block planes k' self (layers ++ [bc_new block inplanes planes 1 VNone])%list
  end.

(** [ResNet._make_layers(self, block, planes, num_of_blocks, stride)]:
    the new [nn.Sequential] and the updated instance. The local
    [downsample] is computed and not used: line 136 calls
    [block(self.inplanes, planes, stride)], whose [downsample] defaults
    to [None]. [range(1, num_of_blocks)] has [num_of_blocks - 1]
    iterations, none when [num_of_blocks <= 1]. *)
Definition _make_layers (block : BlockClass) (planes : N) (num_of_blocks : nat) (stride : N)
    (self : Attrs) : Result (Value * Attrs) :=
  inplanes <- getattr_int ResNetT self "inplanes" ;;
  let downsample := make_downsample block inplanes planes stride in
  let layers := [] in
  inplanes <- getattr_int ResNetT self "inplanes" ;;
  let layers := (layers ++ [bc_new block inplanes planes stride VNone])%list in
  let self := setattr self "inplanes" (VInt (planes * expansion block)) in
  layers <- append_rest block planes (num_of_blocks - 1) self layers ;;
  Ok (VSeq layers, self).

(** ** Channel flow through a sequence of blocks

    [chain c bs] follows the channel count [c] through the blocks [bs]:
    each block must take the current count as input; the result is
    the count the last block outputs. *)
Fixpoint chain (c : N) (bs : list Value) : option N :=
  match bs with
  | [] => Some c
  | b :: bs' =>
      match block_in b, block_out b with
      | Some i, Some o => if (i =? c)%N then chain o bs' else None
      | _, _ => None
      end
  end.

(** No block of [bs] has a shortcut or a convolution with stride other
    than 1. *)
Definition plain_blocks (bs : list Value) : Prop :=
  Forall (fun b => alist_lookup (obj_attrs b) "downsample" = Some VNone /\
                   Forall (fun c => conv_stride c = Some 1%N) (block_convs b)) bs.

Lemma getattr_int_lookup (cls : ClsTag) (self : Attrs) (k : string) (n : N) :
  alist_lookup self k = Some (VInt n) -> getattr_int cls self k = Ok n.
Proof. intros H. unfold getattr_int, getattr. by rewrite H. Qed.

Lemma chain_app (c : N) (bs1 bs2 : list Value) :
  chain c (bs1 ++ bs2)%list = chain c bs1 ≫= fun c' => chain c' bs2.
Proof.
  revert c. induction bs1 as [|b bs IH]; intros c; simpl; [done|].
  destruct (block_in b), (block_out b); try done. case_match; [apply IH | done].
Qed.

Lemma plain_blocks_app (bs1 bs2 : list Value) :
  plain_blocks bs1 -> plain_blocks bs2 -> plain_blocks (bs1 ++ bs2)%list.
Proof. apply Forall_app_2. Qed.

#[export] Hint Resolve plain_blocks_app : py.

(** The blocks of a stage as [_make_layers] builds them from the tally
    [i]: the first with the stage's stride, then [n - 1] more. *)
Definition stage_blocks (block : BlockClass) (i planes stride : N) (n : nat) : list Value :=
  bc_new block i planes stride VNone
    :: repeat (bc_new block (planes * expansion block) planes 1 VNone) (n - 1).

Section StageBuilder.
Context (block : BlockClass) `{!BlockLaws block}.

Lemma append_rest_spec (planes : N) (k : nat) (self : Attrs) (layers : list Value) (j : N) :
  alist_lookup self "inplanes" = Some (VInt j) ->
  append_rest block planes k self layers
  = Ok (layers ++ repeat (bc_new block j planes 1 VNone) k)%list.
Proof.
  intros Hj. revert layers. induction k as [|k IH]; intros layers; simpl.
  - by rewrite app_nil_r.
  - rewrite (getattr_int_lookup _ _ _ _ Hj). simpl. rewrite IH.
    by rewrite <- app_assoc.
Qed.

(** [_make_layers] in closed form. *)
Lemma make_layers_result (planes : N) (num_of_blocks : nat) (stride i : N) (self : Attrs) :
  alist_lookup self "inplanes" = Some (VInt i) ->
  _make_layers block planes num_of_blocks stride self
  = Ok (VSeq (bc_new block i planes stride VNone
              :: repeat (bc_new block (planes * expansion block) planes 1 VNone)
                        (num_of_blocks - 1)),
        setattr self "inplanes" (VInt (planes * expansion block))).
Proof.
  intros Hi. unfold _make_layers.
  rewrite (getattr_int_lookup _ _ _ _ Hi). simpl.
  rewrite (append_rest_spec _ _ _ _ (planes * expansion block)); [done|].
  unfold setattr. apply alist_lookup_set_eq.
Qed.

(** C1. [_make_layers] on an instance whose tally [self.inplanes] is
    [i] returns the stage [block(i, planes, stride)] followed by
    [num_of_blocks - 1] copies of [block(planes * expansion, planes)],
    every block built with [downsample=None], and sets the tally to
    [planes * expansion]. *)
Theorem make_layers_spec (planes : N) (num_of_blocks : nat) (stride i : N) (self : Attrs) :
  alist_lookup self "inplanes" = Some (VInt i) ->
  _make_layers block planes num_of_blocks stride self
  = Ok (VSeq (bc_new block i planes stride VNone
              :: repeat (bc_new block (planes * expansion block) planes 1 VNone)
                        (num_of_blocks - 1)),
        setattr self "inplanes" (VInt (planes * expansion block))).
Proof. apply make_layers_result. Qed.

Lemma chain_repeat (b : Value) (c : N) (k : nat) :
  block_in b = Some c -> block_out b = Some c -> chain c (repeat b k) = Some c.
Proof.
  intros Hi Ho. induction k as [|k IH]; simpl; [done|].
  by rewrite Hi, Ho, N.eqb_refl.
Qed.

Lemma plain_new (i planes s : N) : plain_blocks [bc_new block i planes s VNone].
Proof. repeat constructor; [apply new_downsample | apply new_strides]. Qed.

Lemma plain_repeat (b : Value) (k : nat) : plain_blocks [b] -> plain_blocks (repeat b k).
Proof.
  intros Hb. apply Forall_forall. intros b' Hb'.
  apply list_elem_of_In, repeat_spec in Hb' as ->. by inversion Hb.
Qed.

Lemma stage_blocks_length (i planes s : N) (n : nat) :
  length (stage_blocks block i planes s n) = Nat.max 1 n.
Proof. simpl. rewrite repeat_length. lia. Qed.

Lemma stage_blocks_chain (i planes s : N) (n : nat) :
  chain i (stage_blocks block i planes s n) = Some (planes * expansion block)%N.
Proof.
  simpl. rewrite new_in, new_out, N.eqb_refl.
  apply chain_repeat; [apply new_in | apply new_out].
Qed.

Lemma stage_blocks_plain (i planes s : N) (n : nat) :
  plain_blocks (stage_blocks block i planes s n).
Proof.
  apply (plain_blocks_app [_]); [apply plain_new | apply plain_repeat, plain_new].
Qed.

(** C2. Every stage [_make_layers] returns has [max 1 num_of_blocks]
    blocks (a stage asked for 0 blocks still gets one, since the first
    block is appended before the loop); its blocks chain: the first
    takes the tally [i], every block takes what the previous one
    outputs, and the last outputs [planes * expansion], the new tally;
    and no block has a shortcut or a strided convolution. *)
Theorem make_layers_stage (planes : N) (num_of_blocks : nat) (stride i : N)
    (self self' : Attrs) (bs : list Value) :
  alist_lookup self "inplanes" = Some (VInt i) ->
  _make_layers block planes num_of_blocks stride self = Ok (VSeq bs, self') ->
  length bs = Nat.max 1 num_of_blocks /\
  chain i bs = Some (planes * expansion block)%N /\
  plain_blocks bs /\
  alist_lookup self' "inplanes" = Some (VInt (planes * expansion block)).
Proof.
  intros Hi Hm. rewrite (make_layers_result _ _ _ _ _ Hi) in Hm.
  injection Hm as <- <-. split_and!.
  - apply stage_blocks_length.
  - apply stage_blocks_chain.
  - apply stage_blocks_plain.
  - apply alist_lookup_set_eq.
Qed.
End StageBuilder.

(** ** The stage rule of the spec, as an abstract specification

    Spec section 4.3 describes a stage by what each block does: its
    input and output channels, the stride it applies, and whether it
    has a shortcut projection. [spec_stage] is that rule; [abs_block]
    reads the same four facts off a block instance: the main path's
    channels, the product of its convolutions' strides, and whether
    its [downsample] attribute is set. *)
Record BlockSpec : Type := {
  bs_in : N;
  bs_out : N;
  bs_stride : N;
  bs_shortcut : bool
}.

Definition spec_stage (e i planes stride : N) (n : nat) : list BlockSpec :=
  {| bs_in := i; bs_out := planes * e; bs_stride := stride;
     bs_shortcut := negb (stride =? 1)%N || negb (i =? planes * e)%N |}
  :: repeat {| bs_in := planes * e; bs_out := planes * e; bs_stride := 1;
               bs_shortcut := false |} (n - 1).

Definition abs_block (v : Value) : option BlockSpec :=
  match block_in v, block_out v with
  | Some i, Some o =>
      Some {| bs_in := i; bs_out := o;
              bs_stride := foldr N.mul 1%N (omap conv_stride (block_convs v));
              bs_shortcut := match alist_lookup (obj_attrs v) "downsample" with
                             | Some d => is_not_none d
                             | None => false
                             end |}
  | _, _ => None
  end.

(** What the code keeps of a spec block: its channels. *)
Definition unstrided (b : BlockSpec) : BlockSpec :=
  {| bs_in := bs_in b; bs_out := bs_out b; bs_stride := 1; bs_shortcut := false |}.

Lemma stride_product_one (cs : list Prim) :
  Forall (fun c => conv_stride c = Some 1%N) cs -> foldr N.mul 1%N (omap conv_stride cs) = 1%N.
Proof.
  induction 1 as [|c cs Hc _ IH]; [done|].
  cbn [omap list_omap]. rewrite Hc. cbn [foldr fold_right]. by rewrite IH.
Qed.

Section StageSpec.
Context (block : BlockClass) `{!BlockLaws block}.

Lemma abs_block_new (i planes s : N) :
  abs_block (bc_new block i planes s VNone)
  = Some {| bs_in := i; bs_out := planes * expansion block; bs_stride := 1;
            bs_shortcut := false |}.
Proof.
  unfold abs_block. rewrite new_in, new_out, new_downsample.
  by rewrite stride_product_one by apply new_strides.
Qed.

(** The abstraction of the blocks of a stage. *)
Lemma stage_blocks_abs (i planes s : N) (n : nat) :
  map abs_block (stage_blocks block i planes s n)
  = map (fun b => Some (unstrided b)) (spec_stage (expansion block) i planes s n).
Proof.
  unfold stage_blocks, spec_stage. simpl. rewrite !abs_block_new.
  f_equal. rewrite !map_repeat. by rewrite abs_block_new.
Qed.

(** C13. Refinement of the spec's stage rule, up to stride and
    shortcut: the stage [_make_layers] returns, called on an instance
    whose tally [self.inplanes] is [i], is, read through [abs_block],
    the spec's stage [spec_stage] with every block's stride set to 1
    and its shortcut removed. Channels follow the spec; the stride and
    the shortcut the spec asks of the first block are dropped. *)
Theorem stage_refines_spec (planes : N) (n : nat) (s i : N) (self self' : Attrs)
    (stage : list Value) :
  alist_lookup self "inplanes" = Some (VInt i) ->
  _make_layers block planes n s self = Ok (VSeq stage, self') ->
  map abs_block stage
  = map (fun b => Some (unstrided b)) (spec_stage (expansion block) i planes s n).
Proof.
  intros Hi Hm. rewrite (make_layers_result block _ _ _ _ _ Hi) in Hm.
  injection Hm as <- _. fold (stage_blocks block i planes s n). apply stage_blocks_abs.
Qed.

(** C14. Hence the stage [_make_layers] returns meets the spec's rule
    exactly when the rule asks for neither a stride nor a shortcut,
    that is when the stride is 1 and the tally already equals
    [planes * expansion]. *)
Theorem stage_meets_spec_iff (planes : N) (n : nat) (s i : N) (self self' : Attrs)
    (stage : list Value) :
  alist_lookup self "inplanes" = Some (VInt i) ->
  _make_layers block planes n s self = Ok (VSeq stage, self') ->
  (map abs_block stage = map Some (spec_stage (expansion block) i planes s n)
   <-> s = 1%N /\ i = (planes * expansion block)%N).
Proof.
  intros Hi Hm. rewrite (make_layers_result block _ _ _ _ _ Hi) in Hm.
  injection Hm as <- _. fold (stage_blocks block i planes s n).
  rewrite stage_blocks_abs. unfold spec_stage. simpl. split.
  - intros H. injection H as Hs Hsc. subst s. split; [done|].
    apply N.eqb_eq. destruct (i =? _)%N; [done|]. discriminate Hsc.
  - intros [-> ->]. rewrite !map_repeat. simpl. by rewrite N.eqb_refl.
Qed.

(** The forward pass of the shortcut [_make_layers] computes. *)
Lemma make_downsample_forward (call : Caller) (i planes s n h w : N) :
  (forall p y, call (VPrim p) y = prim_forward p y) ->
  (s <> 1 \/ i <> planes * expansion block)%N -> s <> 0%N ->
  (1 <= h)%N -> (1 <= w)%N -> (2 <= n)%N ->
  exists ms, make_downsample block i planes s = VSeq ms /\
    seq_forward call ms [n; i; h; w]
    = Ok [n; planes * expansion block; conv_out h 1 s 0; conv_out w 1 s 0]%N.
Proof.
  intros Hcall Hneed Hs Hh Hw Hn. unfold make_downsample.
  replace (negb _ || negb _) with true
    by (destruct Hneed as [H|H]; apply N.eqb_neq in H; rewrite H; [done|]; by rewrite orb_true_r).
  eexists. split; [reflexivity|]. cbn [seq_forward]. rewrite Hcall.
  unfold conv1x1. cbn [prim_forward]. rewrite conv2d_forward_4d by lia.
  cbn [rbind seq_forward]. rewrite Hcall. cbn [prim_forward].
  rewrite batchnorm2d_forward_ok; [done| |done].
  pose proof (conv_out_pos h 1 s 0). pose proof (conv_out_pos w 1 s 0). nia.
Qed.

(** C15. The shortcut [_make_layers] computes (lines 125-130) is the
    one the spec asks for: when the stride is not 1 or the tally
    differs from [planes * expansion], it maps a batch
    [N, inplanes, H, W] to [N, planes * expansion, H', W'] with the
    stage's stride applied, the shape the spec's main path has. *)
Theorem make_downsample_shape (call : Caller) (i planes s n h w : N) :
  (forall p y, call (VPrim p) y = prim_forward p y) ->
  (s <> 1 \/ i <> planes * expansion block)%N -> s <> 0%N ->
  (1 <= h)%N -> (1 <= w)%N -> (2 <= n)%N ->
  exists ms, make_downsample block i planes s = VSeq ms /\
    seq_forward call ms [n; i; h; w]
    = Ok [n; planes * expansion block; conv_out h 1 s 0; conv_out w 1 s 0]%N.
Proof. apply make_downsample_forward. Qed.
End StageSpec.

(** ** Witnesses at a concrete stage: two [BasicBlock]s of width 64 *)

Lemma make_layers_spec_witness :
  _make_layers BasicBlock 64 2 1 [("inplanes", VInt 64)]
  = Ok (VSeq [BasicBlock_init 64 64 1 VNone; BasicBlock_init 64 64 1 VNone],
        [("inplanes", VInt 64)]).
Proof. exact (make_layers_spec BasicBlock 64 2 1 64 [("inplanes", VInt 64)] eq_refl). Defined.

Lemma make_layers_stage_witness :
  exists bs self', _make_layers BasicBlock 64 2 1 [("inplanes", VInt 64)] = Ok (VSeq bs, self') /\
    length bs = 2 /\ chain 64 bs = Some 64%N /\ plain_blocks bs /\
    alist_lookup self' "inplanes" = Some (VInt 64).
Proof.
  do 2 eexists. split; [reflexivity|].
  apply (make_layers_stage BasicBlock 64 2 1 64 [("inplanes", VInt 64)]); reflexivity.
Defined.

Lemma stage_refines_spec_witness :
  exists stage self',
    _make_layers Bottleneck 64 3 1 [("inplanes", VInt 64)] = Ok (VSeq stage, self') /\
    map abs_block stage = map (fun b => Some (unstrided b)) (spec_stage 4 64 64 1 3).
Proof.
  do 2 eexists. split; [reflexivity|].
  eapply (stage_refines_spec Bottleneck 64 3 1 64 [("inplanes", VInt 64)]); reflexivity.
Defined.

(** The first stage of a [BasicBlock] network (64 to 64 channels,
    stride 1) is the only kind that meets the rule. *)
Lemma stage_meets_spec_iff_witness :
  exists stage self',
    _make_layers BasicBlock 64 2 1 [("inplanes", VInt 64)] = Ok (VSeq stage, self') /\
    map abs_block stage = map Some (spec_stage 1 64 64 1 2).
Proof.
  do 2 eexists. split; [reflexivity|].
  eapply (stage_meets_spec_iff BasicBlock 64 2 1 64 [("inplanes", VInt 64)]);
    [reflexivity | reflexivity | split; reflexivity].
Defined.

Lemma make_downsample_shape_witness :
  exists ms, make_downsample Bottleneck 64 64 1 = VSeq ms /\
    seq_forward (fun v y => match v with VPrim p => prim_forward p y | _ => Ok y end) ms
      [2; 64; 56; 56]%N
    = Ok [2; 64 * expansion Bottleneck; conv_out 56 1 1 0; conv_out 56 1 1 0]%N.
Proof.
  apply (make_downsample_shape Bottleneck); [intros; reflexivity | right; discriminate | lia ..].
Defined.
