(* ===== verification/ResNet.v ===== *)
(** * ResNet: the network, its presets and the script's top level

    src/resnet-study.py lines 83-187. [ResNet_init] is [ResNet.__init__]
    (lines 93-117): it sets [self.inplanes = 64], the stem layers, the
    four stages built by [_make_layers] of [Stage.v] (widths 64, 128,
    256, 512; strides 1, 2, 2, 2; block counts [layers[0..3]]), the
    classifier [fc] and the pooling [avgpool]. [ResNet_forward] is
    [ResNet.forward] (lines 148-164). [call_module] is Python's call of a
    module, [m(x)], which runs the [forward] of [m]'s class; it is a
    [Fixpoint] on a fuel bound on the nesting of modules (a network is
    nested 5 deep: network, stage, block, shortcut, layer).
    [ResNet18] .. [ResNet152] are the presets (lines 170-183), and
    [script_globals] runs the module's top-level statements in order
    and returns its global namespace. *)

From stdpp Require Import base list strings sets.
From Stdlib Require Import NArith Lia.
From S2P Require Import Prelude Torch PyObject Blocks Stage.

Local Open Scope py_scope.
Local Open Scope string_scope.

(** Python's [l[i]] on a list, for [i >= 0]. *)
Definition list_index {A : Type} (l : list A) (i : nat) : Result A :=
  match nth_error l i with
  | Some a => Ok a
  | None => Err (IndexError "list index out of range")
  end.

(** [ResNet.__init__(self, block, layers, num_classes=1000)]. *)
Definition ResNet_init (block : BlockClass) (layers : list nat) (num_classes : N) : Result Value :=
  let self := [] in
  let self := setattr self "inplanes" (VInt 64) in
  inplanes <- getattr_int ResNetT self "inplanes" ;;
  let self := setattr self "conv1" (VPrim (Conv2d 3 inplanes 7 2 3 false)) in
  inplanes <- getattr_int ResNetT self "inplanes" ;;
  let self := setattr self "bn1" (VPrim (BatchNorm2d inplanes)) in
  let self := setattr self "relu" (VPrim ReLU) in
  let self := setattr self "maxpool" (VPrim (MaxPool2d 3 2 1)) in
  n0 <- list_index layers 0 ;;
  r <- _make_layers block 64 n0 1 self ;;
  let self := setattr r.2 "conv2_" r.1 in
  n1 <- list_index layers 1 ;;
  r <- _make_layers block 128 n1 2 self ;;
  let self := setattr r.2 "conv3_" r.1 in
  n2 <- list_index layers 2 ;;
  r <- _make_layers block 256 n2 2 self ;;
  let self := setattr r.2 "conv4_" r.1 in
  n3 <- list_index layers 3 ;;
  r <- _make_layers block 512 n3 2 self ;;
  let self := setattr r.2 "conv5_" r.1 in
  let self := setattr self "fc" (VPrim (Linear (512 * expansion block) num_classes)) in
  let self := setattr self "avgpool" (VPrim (AdaptiveAvgPool2d 1 1)) in
  Ok (VObj ResNetT self).

(** [ResNet.forward(self, x)]. *)
Definition ResNet_forward (call : Caller) (self : Attrs) (x : Shape) : Result Shape :=
  m <- getattr ResNetT self "conv1" ;; out <- call m x ;;
  m <- getattr ResNetT self "bn1" ;; out <- call m out ;;
  m <- getattr ResNetT self "relu" ;; out <- call m out ;;
  m <- getattr ResNetT self "maxpool" ;; out <- call m out ;;
  m <- getattr ResNetT self "conv2_" ;; out <- call m out ;;
  m <- getattr ResNetT self "conv3_" ;; out <- call m out ;;
  m <- getattr ResNetT self "conv4_" ;; out <- call m out ;;
  m <- getattr ResNetT self "conv5_" ;; out <- call m out ;;
  m <- getattr ResNetT self "avgpool" ;; out <- call m out ;;
  out <- flatten1 out ;;
  m <- getattr ResNetT self "fc" ;; call m out.

(** [m(x)] in a module whose globals are [g]: the [forward] of [m]'s
    class. Calling [None], an int, or one of the script's functions,
    classes or imported modules with one tensor raises [TypeError]. *)
Fixpoint call_module (g : Attrs) (fuel : nat) (v : Value) (x : Shape) : Result Shape :=
  match fuel with
  | O => Err FuelExhausted
  | S f =>
      match v with
      | VPrim p => prim_forward p x
      | VSeq ms => seq_forward (call_module g f) ms x
      | VObj BasicBlockT a => BasicBlock_forward (call_module g f) a x
      | VObj BottleneckT a => Bottleneck_forward (call_module g f) g a x
      | VObj ResNetT a => ResNet_forward (call_module g f) a x
      | VNone => Err (TypeError "'NoneType' object is not callable")
      | VInt _ => Err (TypeError "'int' object is not callable")
      | VFun _ => Err (TypeError "missing required positional arguments")
      end
  end.

(** ** The presets (lines 170-183) *)

Definition ResNet18 : Result Value := ResNet_init BasicBlock [2; 2; 2; 2] 1000.
Definition ResNet34 : Result Value := ResNet_init BasicBlock [3; 4; 6; 3] 1000.
Definition ResNet50 : Result Value := ResNet_init Bottleneck [3; 4; 6; 3] 1000.
Definition ResNet101 : Result Value := ResNet_init Bottleneck [3; 4; 23; 3] 1000.
Definition ResNet152 : Result Value := ResNet_init Bottleneck [3; 8; 36; 3] 1000.

(** ** The script's top level (lines 1-187)

    The statements run in order and bind the module's globals; the
    bare expression statements [myneck], [mynet50] and [mynet101]
    (lines 85, 168, 187) evaluate a name and discard it. *)
Definition script_globals : Result Attrs :=
  let g := [] in
  let g := alist_set g "torch" (VFun "torch") in
  let g := alist_set g "nn" (VFun "torch.nn") in
  let g := alist_set g "conv3x3" (VFun "conv3x3") in
  let g := alist_set g "conv1x1" (VFun "conv1x1") in
  let g := alist_set g "BasicBlock" (VFun "BasicBlock") in
  let g := alist_set g "Bottleneck" (VFun "Bottleneck") in
  let g := alist_set g "myneck" (Bottleneck_init 64 64 1 VNone) in
  let g := alist_set g "ResNet" (VFun "ResNet") in
  mynet50 <- ResNet_init Bottleneck [3; 4; 6; 3] 1000 ;;
  let g := alist_set g "mynet50" mynet50 in
  let g := alist_set g "ResNet18" (VFun "ResNet18") in
  let g := alist_set g "ResNet34" (VFun "ResNet34") in
  let g := alist_set g "ResNet50" (VFun "ResNet50") in
  let g := alist_set g "ResNet101" (VFun "ResNet101") in
  let g := alist_set g "ResNet152" (VFun "ResNet152") in
  mynet101 <- ResNet101 ;;
  let g := alist_set g "mynet101" mynet101 in
  Ok g.

(** ** Construction *)

(** The stages and blocks of a network, in forward order. *)
Definition stage_names : list string := ["conv2_"; "conv3_"; "conv4_"; "conv5_"].

Definition net_stage (net : Value) (name : string) : list Value :=
  match alist_lookup (obj_attrs net) name with Some (VSeq bs) => bs | _ => [] end.

Definition net_blocks (net : Value) : list Value :=
  concat (map (net_stage net) stage_names).

#[local] Arguments _make_layers : simpl never.
#[local] Arguments stage_blocks : simpl never.

Section Construction.
Context (block : BlockClass) `{!BlockLaws block}.

(** The attribute dictionary [ResNet.__init__] builds. *)
Lemma ResNet_init_attrs (n0 n1 n2 n3 : nat) (rest : list nat) (num_classes : N) :
  let e := expansion block in
  ResNet_init block (n0 :: n1 :: n2 :: n3 :: rest) num_classes =
  Ok (VObj ResNetT
    [("inplanes", VInt (512 * e));
     ("conv1", VPrim (Conv2d 3 64 7 2 3 false));
     ("bn1", VPrim (BatchNorm2d 64));
     ("relu", VPrim ReLU);
     ("maxpool", VPrim (MaxPool2d 3 2 1));
     ("conv2_", VSeq (stage_blocks block 64 64 1 n0));
     ("conv3_", VSeq (stage_blocks block (64 * e) 128 2 n1));
     ("conv4_", VSeq (stage_blocks block (128 * e) 256 2 n2));
     ("conv5_", VSeq (stage_blocks block (256 * e) 512 2 n3));
     ("fc", VPrim (Linear (512 * e) num_classes));
     ("avgpool", VPrim (AdaptiveAvgPool2d 1 1))]).
Proof.
  unfold ResNet_init. simpl.
  rewrite (make_layers_result block _ _ _ 64) by reflexivity. simpl.
  rewrite (make_layers_result block _ _ _ (64 * expansion block)) by reflexivity. simpl.
  rewrite (make_layers_result block _ _ _ (128 * expansion block)) by reflexivity. simpl.
  rewrite (make_layers_result block _ _ _ (256 * expansion block)) by reflexivity. simpl.
  reflexivity.
Qed.

(** C8. [ResNet.__init__] with at least four stage sizes builds exactly
    this module: the tally [inplanes] ends at [512 * expansion], the
    stem is [Conv2d(3, 64, 7, stride 2, padding 3, bias=False)],
    [BatchNorm2d(64)], [ReLU] and [MaxPool2d(3, 2, 1)], stage [k] is
    [stage_blocks] from the tally left by stage [k - 1] with widths
    64, 128, 256, 512 and strides 1, 2, 2, 2, and the head is
    [Linear(512 * expansion, num_classes)] and [AdaptiveAvgPool2d(1)]. *)
Theorem ResNet_init_spec (n0 n1 n2 n3 : nat) (rest : list nat) (num_classes : N) :
  let e := expansion block in
  ResNet_init block (n0 :: n1 :: n2 :: n3 :: rest) num_classes =
  Ok (VObj ResNetT
    [("inplanes", VInt (512 * e));
     ("conv1", VPrim (Conv2d 3 64 7 2 3 false));
     ("bn1", VPrim (BatchNorm2d 64));
     ("relu", VPrim ReLU);
     ("maxpool", VPrim (MaxPool2d 3 2 1));
     ("conv2_", VSeq (stage_blocks block 64 64 1 n0));
     ("conv3_", VSeq (stage_blocks block (64 * e) 128 2 n1));
     ("conv4_", VSeq (stage_blocks block (128 * e) 256 2 n2));
     ("conv5_", VSeq (stage_blocks block (256 * e) 512 2 n3));
     ("fc", VPrim (Linear (512 * e) num_classes));
     ("avgpool", VPrim (AdaptiveAvgPool2d 1 1))]).
Proof. apply ResNet_init_attrs. Qed.

(** Runs the stages of [ResNet_init] with [make_layers_result]. *)
Ltac init_steps :=
  unfold ResNet_init; simpl;
  repeat (erewrite (make_layers_result block) by reflexivity; simpl).

(** [ResNet.__init__] with fewer than four stage sizes. *)
Lemma ResNet_init_short_layers (layers : list nat) (num_classes : N) :
  length layers < 4 ->
  ResNet_init block layers num_classes = Err (IndexError "list index out of range").
Proof.
  intros Hl. destruct layers as [|n0 [|n1 [|n2 [|n3 rest]]]]; simpl in Hl;
    try lia; init_steps; reflexivity.
Qed.

(** C9. [ResNet.__init__] reads [layers[0]] .. [layers[3]]: with fewer
    than four stage sizes it raises [IndexError]. *)
Theorem ResNet_init_IndexError (layers : list nat) (num_classes : N) :
  length layers < 4 ->
  ResNet_init block layers num_classes = Err (IndexError "list index out of range").
Proof. apply ResNet_init_short_layers. Qed.

(** C10. Every network [ResNet.__init__] returns is shape-consistent
    along its main path: its blocks, stage after stage, chain from the
    stem's 64 channels to [512 * expansion], the input of [fc]; there
    are [max 1 layers[k]] blocks in stage [k]; and no block has a
    shortcut or a strided convolution. *)
Theorem ResNet_init_wellformed (layers : list nat) (num_classes : N) (net : Value) :
  ResNet_init block layers num_classes = Ok net ->
  chain 64 (net_blocks net) = Some (512 * expansion block)%N /\
  alist_lookup (obj_attrs net) "fc"
    = Some (VPrim (Linear (512 * expansion block) num_classes)) /\
  length (net_blocks net) = sum_list (map (Nat.max 1) (take 4 layers)) /\
  plain_blocks (net_blocks net).
Proof.
  intros Hnet. destruct layers as [|n0 [|n1 [|n2 [|n3 rest]]]];
    try (rewrite ResNet_init_short_layers in Hnet by (simpl; lia); discriminate).
  rewrite ResNet_init_attrs in Hnet. injection Hnet as <-.
  set (e := expansion block).
  replace (net_blocks _) with
    (stage_blocks block 64 64 1 n0 ++ stage_blocks block (64 * e) 128 2 n1 ++
     stage_blocks block (128 * e) 256 2 n2 ++ stage_blocks block (256 * e) 512 2 n3)%list
    by (unfold net_blocks; simpl; by rewrite app_nil_r).
  split_and!.
  - rewrite !chain_app, (stage_blocks_chain block). cbn [mbind option_bind].
    rewrite !chain_app, (stage_blocks_chain block). cbn [mbind option_bind].
    rewrite !chain_app, (stage_blocks_chain block). cbn [mbind option_bind].
    by rewrite (stage_blocks_chain block).
  - done.
  - rewrite !length_app, !(stage_blocks_length block). simpl. lia.
  - repeat apply plain_blocks_app; apply (stage_blocks_plain block).
Qed.
End Construction.

(** ** Forward passes *)

Lemma ResNet_forward_le (c1 c2 : Caller) (self : Attrs) (x : Shape) :
  (forall v y, res_le (c1 v y) (c2 v y)) ->
  res_le (ResNet_forward c1 self x) (ResNet_forward c2 self x).
Proof. intros Hc. unfold ResNet_forward. auto 60 with py. Qed.

#[export] Hint Resolve ResNet_forward_le : py.

(** Monotonicity of [call_module] in the fuel. *)
Lemma call_module_fuel_mono (g : Attrs) (f f' : nat) (v : Value) (x : Shape) :
  f <= f' -> res_le (call_module g f v x) (call_module g f' v x).
Proof.
  revert f' v x. induction f as [|f IH]; intros f' v x Hf; [by intros []|].
  destruct f' as [|f']; [lia|]. assert (Hc : forall v y, res_le (call_module g f v y)
    (call_module g f' v y)) by (intros; apply IH; lia).
  destruct v as [| | |ms|[] a|]; simpl; auto with py.
Qed.

(** A module whose every call fails. *)
Definition never_ok (g : Attrs) (v : Value) : Prop :=
  forall f x y, call_module g f v x <> Ok y.

Lemma never_ok_seq_head (g : Attrs) (b : Value) (bs : list Value) :
  never_ok g b -> never_ok g (VSeq (b :: bs)).
Proof.
  intros Hb [|f] x y; simpl; [discriminate|].
  apply rbind_never_Ok. intros out Hout. by apply Hb in Hout.
Qed.

Lemma never_ok_BasicBlock (g : Attrs) (i o s : N) (d : Value) :
  never_ok g (BasicBlock_init i o s d).
Proof. intros [|f] x y; simpl; [discriminate|]. apply (BasicBlock_forward_never_ok _ i o s d). Qed.

Lemma never_ok_Bottleneck (g : Attrs) (i p s : N) (d : Value) :
  binds g "conv1" = false -> never_ok g (Bottleneck_init i p s d).
Proof.
  intros Hg [|f] x y; simpl; [discriminate|].
  by rewrite Bottleneck_forward_unbound.
Qed.

(** A network whose first stage never returns never returns. *)
Lemma ResNet_forward_never_ok (call : Caller) (self : Attrs) (m : Value) (x y : Shape) :
  getattr ResNetT self "conv2_" = Ok m -> (forall x' y', call m x' <> Ok y') ->
  ResNet_forward call self x <> Ok y.
Proof.
  intros Hm Hc. unfold ResNet_forward. rewrite Hm. cbn [rbind].
  repeat (apply rbind_never_Ok; let H := fresh in intros ? H; try (apply Hc in H; contradiction)).
Qed.

Lemma never_ok_net (g : Attrs) (block : BlockClass) `{!BlockLaws block}
    (layers : list nat) (num_classes : N) (net : Value) :
  (forall i p s, never_ok g (bc_new block i p s VNone)) ->
  ResNet_init block layers num_classes = Ok net -> never_ok g net.
Proof.
  intros Hb Hnet. destruct layers as [|n0 [|n1 [|n2 [|n3 rest]]]];
    try (rewrite ResNet_init_short_layers in Hnet by (simpl; lia); discriminate).
  rewrite ResNet_init_attrs in Hnet. injection Hnet as <-.
  intros [|f] x y; simpl; [discriminate|].
  eapply ResNet_forward_never_ok; [reflexivity|].
  intros x' y'. apply never_ok_seq_head, Hb.
Qed.

(** C11. No network built with [BasicBlock] ever returns from its
    forward pass: for every stage list, class count, input and fuel,
    the call raises (the [AttributeError] of C3 once the stem and the
    first block's layers succeed, a layer's error before). The spec's
    contract [N,3,H,W] -> [N,num_classes] has no instance. *)
Theorem ResNet_BasicBlock_never_returns (g : Attrs) (layers : list nat) (num_classes : N)
    (net : Value) (fuel : nat) (x y : Shape) :
  ResNet_init BasicBlock layers num_classes = Ok net ->
  call_module g fuel net x <> Ok y.
Proof.
  intros Hnet. eapply (never_ok_net g BasicBlock); [|exact Hnet].
  intros. apply never_ok_BasicBlock.
Qed.

(** C12. No network built with [Bottleneck] returns from its forward
    pass in a module whose globals do not bind [conv1]. *)
Theorem ResNet_Bottleneck_never_returns (g : Attrs) (layers : list nat) (num_classes : N)
    (net : Value) (fuel : nat) (x y : Shape) :
  binds g "conv1" = false ->
  ResNet_init Bottleneck layers num_classes = Ok net ->
  call_module g fuel net x <> Ok y.
Proof.
  intros Hg Hnet. eapply (never_ok_net g Bottleneck); [|exact Hnet].
  intros. by apply never_ok_Bottleneck.
Qed.

(** C16. The stride is dropped as well: [BasicBlock.__init__] builds
    both convolutions with stride 1 whatever [stride] it is given. So even
    a block that had the attribute [bn2] and received the shortcut
    [_make_layers] computes for a stride-2 stage would raise at
    [out += identity]: the shortcut halves [H] and the main path keeps
    it. *)
Theorem BasicBlock_strided_shortcut_mismatch (g : Attrs) (fuel : nat) (i o n h w : N) :
  3 <= fuel -> (2 <= n)%N -> (3 <= h)%N -> (1 <= w)%N ->
  call_module g fuel
    (VObj BasicBlockT
       (setattr (obj_attrs (BasicBlock_init i o 2 (make_downsample BasicBlock i o 2))) "bn2"
          (VPrim (BatchNorm2d o))))
    [n; i; h; w]
  = Err (RuntimeError "add_" "the size of tensor a must match the size of tensor b").
Proof.
  intros Hf Hn Hh Hw. destruct fuel as [|[|[|f]]]; try lia. cbn [call_module].
  rewrite (BasicBlock_forward_main (call_module g (S (S f))) (fun _ _ => eq_refl))
    by (try lia; nia).
  destruct (make_downsample_forward BasicBlock (call_module g (S f)) i o 2 n h w)
    as (ms & Hms & Hsh); [done | left; lia | lia | lia | lia | lia |].
  rewrite Hms. cbn [is_not_none].
  change (call_module g (S (S f)) (VSeq ms) ?x) with (seq_forward (call_module g (S f)) ms x).
  rewrite Hsh. cbn [rbind].
  by rewrite iadd_height_mismatch by apply conv_out_1x1_stride2, Hh.
Qed.

(** ** Witnesses *)

Lemma ResNet_init_spec_witness :
  exists attrs, ResNet_init BasicBlock [2; 2; 2; 2] 1000 = Ok (VObj ResNetT attrs).
Proof. eexists. apply (ResNet_init_spec BasicBlock 2 2 2 2 [] 1000). Defined.

Lemma ResNet_init_IndexError_witness :
  ResNet_init Bottleneck [3; 4] 1000 = Err (IndexError "list index out of range").
Proof. apply (ResNet_init_IndexError Bottleneck). simpl. lia. Defined.

Lemma ResNet_init_wellformed_witness :
  exists net, ResNet_init BasicBlock [2; 2; 2; 2] 1000 = Ok net /\
    chain 64 (net_blocks net) = Some 512%N /\
    alist_lookup (obj_attrs net) "fc" = Some (VPrim (Linear 512 1000)) /\
    length (net_blocks net) = 8 /\ plain_blocks (net_blocks net).
Proof.
  eexists. split; [reflexivity|].
  apply (ResNet_init_wellformed BasicBlock [2; 2; 2; 2] 1000). reflexivity.
Defined.

Lemma ResNet_BasicBlock_never_returns_witness :
  exists net, ResNet_init BasicBlock [2; 2; 2; 2] 1000 = Ok net /\
    is_ok (call_module [] 6 net [2; 3; 64; 64]%N) = false.
Proof.
  eexists. split; [reflexivity|].
  destruct (call_module [] 6 _ _) as [y|e] eqn:C; [|reflexivity]. exfalso.
  exact (ResNet_BasicBlock_never_returns [] [2; 2; 2; 2] 1000 _ 6 _ _ eq_refl C).
Defined.

Lemma ResNet_Bottleneck_never_returns_witness :
  exists net, ResNet_init Bottleneck [3; 4; 6; 3] 1000 = Ok net /\
    is_ok (call_module [] 6 net [2; 3; 64; 64]%N) = false.
Proof.
  eexists. split; [reflexivity|].
  destruct (call_module [] 6 _ _) as [y|e] eqn:C; [|reflexivity]. exfalso.
  exact (ResNet_Bottleneck_never_returns [] [3; 4; 6; 3] 1000 _ 6 _ _ eq_refl eq_refl C).
Defined.

Lemma BasicBlock_strided_shortcut_mismatch_witness :
  call_module [] 3
    (VObj BasicBlockT
       (setattr (obj_attrs (BasicBlock_init 64 128 2 (make_downsample BasicBlock 64 128 2)))
          "bn2" (VPrim (BatchNorm2d 128))))
    [2; 64; 56; 56]%N
  = Err (RuntimeError "add_" "the size of tensor a must match the size of tensor b").
Proof. apply BasicBlock_strided_shortcut_mismatch; lia. Defined.

