(* ===== verification/Forward.v ===== *)
(** * Forward: the forward pass of a whole network, end to end

    [ResNet.forward] (src/resnet-study.py lines 148-164) reads nine
    attributes in turn and calls each on the running tensor, then
    flattens and applies [fc]. This file shows that it is the
    feed-forward [pipeline] of those modules, computes the stem
    (lines 103-106: [conv1], [bn1], [relu], [maxpool]) in closed form,
    including the output size [ceil(H/4)] and every error, and from
    these gives the exact outcome of the forward pass of every network
    [ResNet.__init__] builds, for every input shape and every fuel from
    4 on. *)

From stdpp Require Import base list strings sets.
From Stdlib Require Import NArith ZArith Lia.
From S2P Require Import Prelude Torch PyObject Blocks Stage ResNet.

Local Open Scope py_scope.
Local Open Scope string_scope.

(** ** Reference definitions *)

(** The attributes [ResNet.forward] calls before flattening, in order. *)
Definition forward_names : list string :=
  ["conv1"; "bn1"; "relu"; "maxpool"; "conv2_"; "conv3_"; "conv4_"; "conv5_"; "avgpool"].

(** [self.name] for each name in turn; the first missing name raises. *)
Fixpoint getattrs (cls : ClsTag) (self : Attrs) (names : list string) : Result (list Value) :=
  match names with
  | [] => Ok []
  | nm :: nms => m <- getattr cls self nm ;; ms <- getattrs cls self nms ;; Ok (m :: ms)
  end.

(** A feed-forward network: modules in order, flatten, classifier. *)
Definition pipeline (call : Caller) (ms : list Value) (fc : Value) (x : Shape) : Result Shape :=
  out <- seq_forward call ms x ;; out <- flatten1 out ;; call fc out.

(** The stem [ResNet.__init__] builds (lines 103-106, with
    [self.inplanes = 64]). *)
Definition stem : list Prim :=
  [Conv2d 3 64 7 2 3 false; BatchNorm2d 64; ReLU; MaxPool2d 3 2 1].

(** A chain of primitives, applied directly. *)
Fixpoint prims_forward (ps : list Prim) (x : Shape) : Result Shape :=
  match ps with
  | [] => Ok x
  | p :: ps => y <- prim_forward p x ;; prims_forward ps y
  end.

Definition ValueError_per_channel : PyErr :=
  ValueError "Expected more than 1 value per channel when training".

(** The stem's outcome on a batched input, in closed form: the channel
    check of [conv1], its size check, the check of [bn1] on the
    [ceil(H/2) x ceil(W/2)] map, and the output [ceil(H/4) x ceil(W/4)]
    with 64 channels. *)
Definition stem_spec (n c h w : N) : Result Shape :=
  if negb (c =? 3)%N then
    Err (RuntimeError "conv2d" "expected input to have in_channels channels")
  else if (h =? 0)%N || (w =? 0)%N then
    Err (RuntimeError "conv2d" "kernel size can't be greater than actual input size")
  else if (n * ((h + 1) / 2) * ((w + 1) / 2) =? 1)%N then Err ValueError_per_channel
  else Ok [n; 64; (h + 3) / 4; (w + 3) / 4]%N.

(** The classifier head's outcome in closed form (the spec's head:
    global average pooling to [N,C,1,1], flattening to [N,C], the linear
    projection to [num_classes] logits): [avgpool] raises on an empty
    map, [fc] raises unless [C] is its input width [512 * expansion]. *)
Definition head_spec (n c h w num_classes e : N) : Result Shape :=
  if (c =? 0)%N || (h =? 0)%N || (w =? 0)%N then
    Err (RuntimeError "adaptive_avg_pool2d" "expected non-zero sizes for non-batch dimensions")
  else if (c =? 512 * e)%N then Ok [n; num_classes]
  else Err (RuntimeError "linear" "mat1 and mat2 shapes cannot be multiplied").

(** ** Lemmas *)

Lemma getattrs_cons_inv (cls : ClsTag) (self : Attrs) (nm : string) (nms : list string)
    (ms : list Value) :
  getattrs cls self (nm :: nms) = Ok ms ->
  exists m ms', getattr cls self nm = Ok m /\ getattrs cls self nms = Ok ms' /\ ms = m :: ms'.
Proof. simpl. intros H. py_inv. eauto. Qed.

Lemma seq_forward_prims (call : Caller) (ps : list Prim) (x : Shape) :
  (forall p y, call (VPrim p) y = prim_forward p y) ->
  seq_forward call (map VPrim ps) x = prims_forward ps x.
Proof.
  intros Hc. revert x. induction ps as [|p ps IH]; intros x; simpl; [done|].
  rewrite Hc. apply rbind_ext. intros. apply IH.
Qed.

Lemma prims_forward_app (ps1 ps2 : list Prim) (x : Shape) :
  prims_forward (ps1 ++ ps2) x = (y <- prims_forward ps1 x ;; prims_forward ps2 y).
Proof.
  revert x. induction ps1 as [|p ps IH]; intros x; simpl; [done|].
  rewrite rbind_assoc. apply rbind_ext. intros. apply IH.
Qed.

Lemma stem_conv_out (h : N) : (1 <= h)%N -> conv_out h 7 2 3 = ((h + 1) / 2)%N.
Proof. unfold conv_out. intros. ndiv. Qed.

Lemma stem_pool_out (h : N) : (1 <= h)%N -> conv_out ((h + 1) / 2) 3 2 1 = ((h + 3) / 4)%N.
Proof. unfold conv_out. intros. ndiv. Qed.

(** ** The forward pass is a pipeline *)

(** C17. When the nine attributes [ResNet.forward] calls and [fc] are
    all set, [ResNet.forward] is the feed-forward pipeline of those
    modules: it applies them in the order [conv1], [bn1], [relu],
    [maxpool], [conv2_] .. [conv5_], [avgpool], flattens, and applies
    [fc]; an error of any step is the result. *)
Theorem ResNet_forward_pipeline (call : Caller) (self : Attrs) (ms : list Value) (fc : Value)
    (x : Shape) :
  getattrs ResNetT self forward_names = Ok ms -> getattr ResNetT self "fc" = Ok fc ->
  ResNet_forward call self x = pipeline call ms fc x.
Proof.
  intros Hms Hfc. unfold forward_names in Hms.
  repeat match goal with H : getattrs _ _ (_ :: _) = Ok _ |- _ =>
    apply getattrs_cons_inv in H as (? & ? & ? & H & ->) end.
  cbn in Hms. injection Hms as <-.
  unfold ResNet_forward, pipeline.
  repeat match goal with H : getattr _ _ _ = Ok _ |- _ => rewrite H; clear H end.
  cbn [rbind seq_forward]. rbind_norm. reflexivity.
Qed.

(** ** The stem *)

(** The stem of every network, [conv1] (7x7, stride 2, padding 3),
    [bn1], [relu] and [maxpool] (3x3, stride 2, padding 1), on a batched
    input [N,C,H,W]: [conv1] raises unless [C = 3] and then unless
    [H, W >= 1]; [bn1] raises [ValueError] when its input
    [N,64,ceil(H/2),ceil(W/2)] has one value per channel; otherwise the
    output is [N,64,ceil(H/4),ceil(W/4)]. *)
Lemma stem_forward_4d (n c h w : N) :
  prims_forward stem [n; c; h; w] = stem_spec n c h w.
Proof.
  unfold stem_spec. cbn.
  destruct (N.eqb_spec c 3) as [->|Hc]; cbn; [|done].
  destruct (N.eqb_spec h 0) as [->|Hh]; [done|].
  destruct (N.eqb_spec w 0) as [->|Hw]; cbn; [by rewrite andb_false_r|].
  rewrite (proj2 (N.leb_le _ _)), (proj2 (N.leb_le _ _)) by lia. cbn.
  rewrite !stem_conv_out by lia.
  case_match; [done|]. cbn. unfold maxpool2d_check.
  rewrite !(proj2 (N.leb_le _ _)) by ndiv. cbn.
  rewrite !stem_pool_out by lia. done.
Qed.

(** The first layers of a [BasicBlock] of width [c] (its [conv1], [bn1],
    [relu], [conv2]) on an input of [c] channels keep its shape, unless
    [bn1] sees one value per channel. *)
Lemma block_head_forward (c n h w : N) :
  (1 <= h)%N -> (1 <= w)%N ->
  prims_forward [conv3x3 c c 1 1; BatchNorm2d c; ReLU; conv3x3 c c 1 1] [n; c; h; w] =
  if (n * h * w =? 1)%N then Err ValueError_per_channel else Ok [n; c; h; w].
Proof.
  intros Hh Hw. cbn [prims_forward].
  rewrite (conv3x3_same c c n h w Hh Hw).
  cbn [rbind prim_forward batchnorm2d_forward raise_unless].
  case_match; [done|]. rewrite N.eqb_refl. cbn [negb rbind raise_unless].
  by rewrite (conv3x3_same c c n h w Hh Hw).
Qed.

(** C18. The stem divides each spatial size by 4, rounding up: when it
    returns a shape on a batched input [N,C,H,W], that shape is
    [N,64,H',W'] with [H <= 4 H' < H + 4] and [W <= 4 W' < W + 4], so
    [H' = ceil(H/4) >= 1], and likewise for [W']. *)
Theorem stem_output_bounds (n c h w : N) (y : Shape) :
  prims_forward stem [n; c; h; w] = Ok y ->
  exists h' w', y = [n; 64; h'; w']%N /\
    (h <= 4 * h' < h + 4)%N /\ (w <= 4 * w' < w + 4)%N /\ (1 <= h')%N /\ (1 <= w')%N.
Proof.
  rewrite stem_forward_4d. unfold stem_spec.
  destruct (negb _); [discriminate|].
  destruct (_ || _) eqn:Hz; [discriminate|].
  apply orb_false_iff in Hz as [Hh%N.eqb_neq Hw%N.eqb_neq].
  destruct (_ =? 1)%N; [discriminate|]. intros [= <-].
  eexists _, _. split; [reflexivity|]. split_and!; ndiv.
Qed.

(** ** The forward pass of the networks [ResNet.__init__] builds *)

Section NetForward.
Context (g : Attrs).

(** A [BasicBlock] network runs the stem and the first block's
    [conv1], [bn1], [relu], [conv2], then raises at [self.bn2]. *)
Lemma BasicBlock_net_forward (layers : list nat) (num_classes : N) (net : Value)
    (fuel : nat) (x : Shape) :
  ResNet_init BasicBlock layers num_classes = Ok net -> 4 <= fuel ->
  call_module g fuel net x =
    (y <- prims_forward (stem ++ [conv3x3 64 64 1 1; BatchNorm2d 64; ReLU; conv3x3 64 64 1 1]) x ;;
     Err (AttributeError "BasicBlock" "bn2")).
Proof.
  intros Hnet Hf. destruct layers as [|n0 [|n1 [|n2 [|n3 rest]]]];
    try (rewrite ResNet_init_short_layers in Hnet by (simpl; lia); discriminate).
  rewrite (ResNet_init_attrs BasicBlock) in Hnet. injection Hnet as <-.
  destruct fuel as [|[|[|[|f]]]]; try lia.
  unfold stage_blocks. cbn. rbind_norm. reflexivity.
Qed.

(** A [Bottleneck] network, in a module that does not bind [conv1],
    runs the stem and raises [NameError] in the first block. *)
Lemma Bottleneck_net_forward (layers : list nat) (num_classes : N) (net : Value)
    (fuel : nat) (x : Shape) :
  binds g "conv1" = false ->
  ResNet_init Bottleneck layers num_classes = Ok net -> 3 <= fuel ->
  call_module g fuel net x = (y <- prims_forward stem x ;; Err (NameError "conv1")).
Proof.
  intros Hg Hnet Hf. destruct layers as [|n0 [|n1 [|n2 [|n3 rest]]]];
    try (rewrite ResNet_init_short_layers in Hnet by (simpl; lia); discriminate).
  rewrite (ResNet_init_attrs Bottleneck) in Hnet. injection Hnet as <-.
  destruct fuel as [|[|[|f]]]; try lia.
  unfold stage_blocks. cbn.
  unfold Bottleneck_forward. rewrite (resolve_name_unbound g "conv1") by done. cbn.
  rbind_norm. reflexivity.
Qed.

(** C19. The outcome of the forward pass of every [BasicBlock] network
    on every batched input [N,C,H,W], for every fuel from 4 on: the
    stem's error when the stem raises (wrong channel count, empty
    image, or [bn1] seeing one value per channel); otherwise [ValueError]
    when the first block's [bn1] sees one value per channel on the
    [ceil(H/4) x ceil(W/4)] map, and [AttributeError] at [self.bn2] in
    every other case. *)
Theorem ResNet_BasicBlock_outcome (layers : list nat) (num_classes : N) (net : Value)
    (fuel : nat) (n c h w : N) :
  ResNet_init BasicBlock layers num_classes = Ok net -> 4 <= fuel ->
  call_module g fuel net [n; c; h; w] =
    (_ <- stem_spec n c h w ;;
     if (n * ((h + 3) / 4) * ((w + 3) / 4) =? 1)%N then Err ValueError_per_channel
     else Err (AttributeError "BasicBlock" "bn2")).
Proof.
  intros Hnet Hf. rewrite (BasicBlock_net_forward _ _ _ _ _ Hnet Hf), prims_forward_app.
  rewrite stem_forward_4d. unfold stem_spec.
  destruct (negb _); [done|].
  destruct (_ || _) eqn:Hz; [done|].
  apply orb_false_iff in Hz as [Hh%N.eqb_neq Hw%N.eqb_neq].
  destruct (_ =? 1)%N; [done|]. cbn [rbind].
  rewrite block_head_forward by ndiv. by destruct (_ =? 1)%N.
Qed.

(** C20. The outcome of the forward pass of every [Bottleneck] network
    on every batched input, in a module that does not bind [conv1], for
    every fuel from 3 on: the stem's error when the stem raises, and
    [NameError] for [conv1] otherwise. *)
Theorem ResNet_Bottleneck_outcome (layers : list nat) (num_classes : N) (net : Value)
    (fuel : nat) (n c h w : N) :
  binds g "conv1" = false ->
  ResNet_init Bottleneck layers num_classes = Ok net -> 3 <= fuel ->
  call_module g fuel net [n; c; h; w] = (_ <- stem_spec n c h w ;; Err (NameError "conv1")).
Proof.
  intros Hg Hnet Hf. rewrite (Bottleneck_net_forward _ _ _ _ _ Hg Hnet Hf).
  by rewrite stem_forward_4d.
Qed.

(** C21. An unbatched image [3,H,W] passes [conv1], which accepts 3D
    input, and then raises [ValueError] at [bn1], which requires a
    batch: the networks of either block class reject every unbatched
    input. *)
Theorem ResNet_forward_unbatched (block : BlockClass) (layers : list nat) (num_classes : N)
    (net : Value) (fuel : nat) (h w : N) :
  block = BasicBlock \/ (block = Bottleneck /\ binds g "conv1" = false) ->
  ResNet_init block layers num_classes = Ok net -> 4 <= fuel -> (1 <= h)%N -> (1 <= w)%N ->
  call_module g fuel net [3%N; h; w] = Err (ValueError "expected 4D input").
Proof.
  intros Hb Hnet Hf Hh Hw.
  assert (Hs : prims_forward stem [3%N; h; w] = Err (ValueError "expected 4D input")).
  { cbn. rewrite !(proj2 (N.leb_le _ _)) by lia. reflexivity. }
  destruct Hb as [->|[-> Hg]].
  - by rewrite (BasicBlock_net_forward _ _ _ _ _ Hnet Hf), prims_forward_app, Hs.
  - by rewrite (Bottleneck_net_forward _ _ _ _ _ Hg Hnet), Hs by lia.
Qed.

(** C28. The classifier head of every network [ResNet.__init__]
    builds (the last three statements of [ResNet.forward], lines
    160-162) meets the spec's head contract: on [N,C,H,W] it returns
    [N, num_classes] exactly when [C = 512 * expansion], the width
    [conv5_] produces (C10), and otherwise raises the layers' errors. *)
Theorem ResNet_head (block : BlockClass) `{!BlockLaws block} (layers : list nat)
    (num_classes : N) (net : Value) (fuel : nat) (n c h w : N) :
  ResNet_init block layers num_classes = Ok net -> 1 <= fuel ->
  (m <- getattr ResNetT (obj_attrs net) "avgpool" ;; out <- call_module g fuel m [n; c; h; w] ;;
   out <- flatten1 out ;;
   m <- getattr ResNetT (obj_attrs net) "fc" ;; call_module g fuel m out)
  = head_spec n c h w num_classes (expansion block).
Proof.
  intros Hnet Hf. destruct layers as [|n0 [|n1 [|n2 [|n3 rest]]]];
    try (rewrite ResNet_init_short_layers in Hnet by (simpl; lia); discriminate).
  rewrite (ResNet_init_attrs block) in Hnet. injection Hnet as <-.
  destruct fuel as [|f]; [lia|]. unfold head_spec. cbn.
  destruct (c =? 0)%N, (h =? 0)%N, (w =? 0)%N; cbn; try done.
  rewrite !N.mul_1_r. by destruct (c =? 512 * expansion block)%N.
Qed.

End NetForward.

(** ** [Bottleneck.forward] in a module that binds its names *)

Section BottleneckGlobals.
Context (call : Caller).
Hypothesis call_prim : forall p y, call (VPrim p) y = prim_forward p y.

(** C29. Where the globals do bind the bare names [Bottleneck.forward]
    reads (lines 64-79) to layers, the pass is the residual pipeline of
    those global layers, whatever the instance holds: [conv1], [bn1],
    [relu], [conv2], [bn2], [relu], [conv3], [bn3] of the globals, then
    the instance's [downsample] (if not [None]) on the input, the
    addition, and the global [relu]. *)
Theorem Bottleneck_forward_globals (g self : Attrs) (c1 b1 r c2 b2 c3 b3 : Prim) (ds : Value)
    (x : Shape) :
  map (alist_lookup g) ["conv1"; "bn1"; "relu"; "conv2"; "bn2"; "conv3"; "bn3"]
    = map (fun p => Some (VPrim p)) [c1; b1; r; c2; b2; c3; b3] ->
  getattr BottleneckT self "downsample" = Ok ds ->
  Bottleneck_forward call g self x =
    (out <- prims_forward [c1; b1; r; c2; b2; r; c3; b3] x ;;
     identity <- (if is_not_none ds then call ds x else Ok x) ;;
     out <- iadd out identity ;;
     prim_forward r out).
Proof.
  cbn [map]. intros [= H1 H2 H3 H4 H5 H6 H7] Hds. unfold Bottleneck_forward, resolve_name.
  rewrite H1, H2, H3, H4, H5, H6, H7, Hds. cbn [rbind prims_forward].
  setoid_rewrite call_prim. rbind_norm. reflexivity.
Qed.

End BottleneckGlobals.

(** ** Witnesses *)

Lemma ResNet_forward_pipeline_witness :
  exists net ms fc,
    ResNet18 = Ok net /\
    ResNet_forward (fun v y => match v with VPrim p => prim_forward p y | _ => Ok y end)
      (obj_attrs net) [2; 3; 224; 224]%N
    = pipeline (fun v y => match v with VPrim p => prim_forward p y | _ => Ok y end)
        ms fc [2; 3; 224; 224]%N.
Proof.
  do 3 eexists. split; [reflexivity|].
  apply ResNet_forward_pipeline; reflexivity.
Defined.

Lemma stem_output_bounds_witness :
  exists h' w', [2; 64; 56; 56]%N = [2; 64; h'; w']%N /\
    (224 <= 4 * h' < 224 + 4)%N /\ (224 <= 4 * w' < 224 + 4)%N /\ (1 <= h')%N /\ (1 <= w')%N.
Proof. apply (stem_output_bounds 2 3 224 224). reflexivity. Defined.

Lemma ResNet_BasicBlock_outcome_witness :
  exists net, ResNet18 = Ok net /\
    call_module [] 4 net [1; 3; 3; 1]%N = Err ValueError_per_channel.
Proof.
  eexists. split; [reflexivity|].
  erewrite (ResNet_BasicBlock_outcome [] [2; 2; 2; 2] 1000); [reflexivity | reflexivity | lia].
Defined.

Lemma ResNet_Bottleneck_outcome_witness :
  exists net, ResNet50 = Ok net /\
    call_module [] 5 net [1; 3; 224; 224]%N = Err (NameError "conv1").
Proof.
  eexists. split; [reflexivity|].
  erewrite (ResNet_Bottleneck_outcome [] [3; 4; 6; 3] 1000);
    [reflexivity | reflexivity | reflexivity | lia].
Defined.

Lemma ResNet_forward_unbatched_witness :
  exists net, ResNet50 = Ok net /\
    call_module [] 5 net [3; 224; 224]%N = Err (ValueError "expected 4D input").
Proof.
  eexists. split; [reflexivity|].
  apply (ResNet_forward_unbatched [] Bottleneck [3; 4; 6; 3] 1000);
    [by right | reflexivity | lia | lia | lia].
Defined.

Lemma ResNet_head_witness :
  exists net, ResNet50 = Ok net /\
    (m <- getattr ResNetT (obj_attrs net) "avgpool" ;; out <- call_module [] 1 m [1; 2048; 7; 7]%N ;;
     out <- flatten1 out ;;
     m <- getattr ResNetT (obj_attrs net) "fc" ;; call_module [] 1 m out)
    = Ok [1; 1000]%N.
Proof.
  eexists. split; [reflexivity|].
  rewrite (ResNet_head [] Bottleneck [3; 4; 6; 3] 1000); [reflexivity | reflexivity | lia].
Defined.

Lemma Bottleneck_forward_globals_witness :
  Bottleneck_forward (fun v y => match v with VPrim p => prim_forward p y | _ => Ok y end)
    [("conv1", VPrim (conv1x1 64 64 1)); ("bn1", VPrim (BatchNorm2d 64)); ("relu", VPrim ReLU);
     ("conv2", VPrim (conv3x3 64 64 1 1)); ("bn2", VPrim (BatchNorm2d 64));
     ("conv3", VPrim (conv1x1 64 256 1)); ("bn3", VPrim (BatchNorm2d 256))]
    (obj_attrs (Bottleneck_init 64 64 1 VNone)) [2; 64; 56; 56]%N
  = Err (RuntimeError "add_" "the size of tensor a must match the size of tensor b").
Proof.
  rewrite (Bottleneck_forward_globals _ (fun p y => eq_refl) _ _
    (conv1x1 64 64 1) (BatchNorm2d 64) ReLU (conv3x3 64 64 1 1) (BatchNorm2d 64)
    (conv1x1 64 256 1) (BatchNorm2d 256) VNone); reflexivity.
Defined.
