(* ===== verification/Callable.v ===== *)
(** * Callable: the module values a forward pass may call

    [call_module] raises [TypeError] ("object is not callable") when a
    forward pass calls [None], an int, or a function, class or Python
    module of the script. [callable] is the typing judgement that rules
    this out: a layer, a [nn.Sequential] of callable modules, or an
    instance whose attributes that its class's [forward] calls are
    callable, and whose [downsample] is [None] or callable.
    [globals_callable] says the same of the bare names
    [Bottleneck.forward] reads from the globals. The theorems: every
    network [ResNet.__init__] builds is callable, and a callable module
    never raises [TypeError], for every input and fuel. *)

From stdpp Require Import base list strings sets.
From Stdlib Require Import NArith Lia.
From S2P Require Import Prelude Torch PyObject Blocks Stage ResNet.

Local Open Scope py_scope.
Local Open Scope string_scope.

(** The attributes the [forward] of each class calls as modules
    (lines 26-39, 148-164); [Bottleneck.forward] calls bare names. *)
Definition called_attrs (c : ClsTag) : list string :=
  match c with
  | BasicBlockT => ["conv1"; "bn1"; "relu"; "conv2"; "bn2"]
  | BottleneckT => []
  | ResNetT => ["conv1"; "bn1"; "relu"; "maxpool"; "conv2_"; "conv3_"; "conv4_"; "conv5_";
                "avgpool"; "fc"]
  end.

(** The bare names [Bottleneck.forward] calls (lines 64-79). *)
Definition bottleneck_names : list string :=
  ["conv1"; "bn1"; "relu"; "conv2"; "bn2"; "conv3"; "bn3"].

Fixpoint callable (v : Value) : bool :=
  match v with
  | VPrim _ => true
  | VSeq ms => forallb callable ms
  | VObj c a =>
      forallb (fun '(k, w) =>
        if existsb (String.eqb k) (called_attrs c) then callable w
        else if String.eqb k "downsample" then negb (is_not_none w) || callable w
        else true) a
  | VNone | VInt _ | VFun _ => false
  end.

Definition globals_callable (g : Attrs) : bool :=
  forallb (fun nm => match alist_lookup g nm with Some v => callable v | None => true end)
    bottleneck_names.

(** A result that is not a [TypeError]. *)
Definition not_TypeError {A : Type} (r : Result A) : Prop :=
  forall msg, r <> Err (TypeError msg).

(** ** Lemmas *)

Lemma rbind_not_TypeError {A B : Type} (m : Result A) (f : A -> Result B) :
  not_TypeError m -> (forall a, m = Ok a -> not_TypeError (f a)) -> not_TypeError (rbind m f).
Proof.
  intros Hm Hf. destruct m; simpl; [by apply Hf|].
  intros msg E. apply (Hm msg). congruence.
Qed.

Lemma layer_not_TypeError {A : Type} (r : Result A) :
  (forall e, r = Err e -> layer_error e) -> not_TypeError r.
Proof. intros H msg E. apply H in E. exact E. Qed.

Lemma getattr_not_TypeError (c : ClsTag) (a : Attrs) (k : string) : not_TypeError (getattr c a k).
Proof. unfold getattr. intros msg. by case_match. Qed.

Lemma resolve_name_not_TypeError (g : Attrs) (k : string) : not_TypeError (resolve_name g k).
Proof. unfold resolve_name. intros msg. by repeat case_match. Qed.

Lemma flatten1_not_TypeError (x : Shape) : not_TypeError (flatten1 x).
Proof. unfold flatten1. intros msg. by repeat case_match. Qed.

(** The value of an attribute that a callable instance's class calls
    is callable. *)
Lemma callable_getattr (c : ClsTag) (a : Attrs) (k : string) (m : Value) :
  callable (VObj c a) = true -> existsb (String.eqb k) (called_attrs c) = true ->
  getattr c a k = Ok m -> callable m = true.
Proof.
  cbn [callable]. intros Ha Hk Hm. unfold getattr in Hm. case_match; [|done].
  injection Hm as <-. match goal with H : alist_lookup _ _ = _ |- _ =>
    apply alist_lookup_In in H end.
  pose proof (proj1 (forallb_forall _ _) Ha _ H) as Hkv. cbn beta iota in Hkv. by rewrite Hk in Hkv.
Qed.

Lemma callable_downsample (c : ClsTag) (a : Attrs) (m : Value) :
  callable (VObj c a) = true -> existsb (String.eqb "downsample") (called_attrs c) = false ->
  getattr c a "downsample" = Ok m -> is_not_none m = true -> callable m = true.
Proof.
  cbn [callable]. intros Ha Hk Hm Hn. unfold getattr in Hm. case_match; [|done].
  injection Hm as <-. match goal with H : alist_lookup _ _ = _ |- _ =>
    apply alist_lookup_In in H end.
  pose proof (proj1 (forallb_forall _ _) Ha _ H) as Hkv. cbn beta iota in Hkv. rewrite Hk in Hkv. cbn in Hkv.
  by rewrite Hn in Hkv.
Qed.

Lemma globals_callable_resolve (g : Attrs) (k : string) (m : Value) :
  globals_callable g = true -> existsb (String.eqb k) bottleneck_names = true ->
  resolve_name g k = Ok m -> callable m = true.
Proof.
  unfold globals_callable, resolve_name. intros Hg Hk Hm.
  apply existsb_exists in Hk as (k' & Hin & Hkk). apply String.eqb_eq in Hkk. subst k'.
  pose proof (proj1 (forallb_forall _ _) Hg k Hin) as Hk'. cbn beta in Hk'.
  destruct (alist_lookup g k) as [v|]; [by injection Hm as <-|].
  exfalso. revert Hm. cbn in Hin.
  repeat (destruct Hin as [<-|Hin]; [vm_compute; intros [=]|]). done.
Qed.

Lemma seq_forward_not_TypeError (call : Caller) (ms : list Value) (x : Shape) :
  (forall m y, In m ms -> not_TypeError (call m y)) -> not_TypeError (seq_forward call ms x).
Proof.
  revert x. induction ms as [|m ms IH]; intros x Hc; simpl; [by intros ? ?|].
  apply rbind_not_TypeError; [apply Hc; by left|].
  intros y _. apply IH. intros; apply Hc; by right.
Qed.

Lemma stage_blocks_callable (block : BlockClass) (i planes s : N) (n : nat) :
  (forall i p s, callable (bc_new block i p s VNone) = true) ->
  forallb callable (stage_blocks block i planes s n) = true.
Proof.
  intros Hnew. unfold stage_blocks. cbn [forallb]. rewrite Hnew. cbn [andb].
  apply forallb_forall. intros b Hb. apply repeat_spec in Hb as ->. apply Hnew.
Qed.

(** ** Type safety *)

Section TypeSafety.
Context (g : Attrs) (Hg : globals_callable g = true).

(** One step of a forward pass: an attribute or name read, a call of a
    module read from a callable instance or from the globals, the
    shortcut, the addition, the flattening. *)
Ltac call_step IH Hv :=
  match goal with
  | |- not_TypeError (getattr _ _ _) => apply getattr_not_TypeError
  | |- not_TypeError (resolve_name _ _) => apply resolve_name_not_TypeError
  | |- not_TypeError (flatten1 _) => apply flatten1_not_TypeError
  | |- not_TypeError (iadd _ _) => apply layer_not_TypeError, iadd_error
  | H : resolve_name g _ = Ok ?m |- not_TypeError (call_module g _ ?m _) =>
      apply IH; eapply globals_callable_resolve; [exact Hg | | exact H]; reflexivity
  | H : getattr _ _ _ = Ok ?m |- not_TypeError (call_module g _ ?m _) =>
      apply IH; eapply callable_getattr; [exact Hv | | exact H]; reflexivity
  | |- not_TypeError (if is_not_none ?ds then _ else _) =>
      destruct (is_not_none ds) eqn:?;
        [apply IH; eapply callable_downsample; [exact Hv | reflexivity | eassumption..]
        | by intros ? ?]
  end.

Ltac forward_steps IH Hv :=
  repeat (apply rbind_not_TypeError; [call_step IH Hv | intros ? ?]); call_step IH Hv.

(** C22. Type safety of module calls: a callable module, called in a
    module whose globals bind the names [Bottleneck.forward] reads only
    to callable modules (or not at all), never raises [TypeError], for
    every input and every fuel. The forward passes raise only the
    layers' errors, [AttributeError], [NameError], [IndexError] from
    [flatten], or run out of fuel. *)
Theorem call_module_not_TypeError (fuel : nat) (v : Value) (x : Shape) :
  callable v = true -> not_TypeError (call_module g fuel v x).
Proof.
  revert v x. induction fuel as [|f IH]; intros v x Hv; [by intros ? ?|].
  destruct v as [| |p|ms|[] a|]; try discriminate Hv; cbn [call_module].
  - apply layer_not_TypeError, prim_forward_error.
  - apply seq_forward_not_TypeError. intros m y Hm. apply IH.
    exact (proj1 (forallb_forall _ _) Hv m Hm).
  - unfold BasicBlock_forward. forward_steps IH Hv.
  - unfold Bottleneck_forward. forward_steps IH Hv.
  - unfold ResNet_forward. forward_steps IH Hv.
Qed.

End TypeSafety.

(** ** The networks are callable *)

(** Instances of both block classes, as [_make_layers] builds them
    (with [downsample = None]), are callable. *)
Lemma BasicBlock_callable (i p s : N) : callable (bc_new BasicBlock i p s VNone) = true.
Proof. reflexivity. Qed.

Lemma Bottleneck_callable (i p s : N) : callable (bc_new Bottleneck i p s VNone) = true.
Proof. reflexivity. Qed.

(** C23. Every network [ResNet.__init__] returns is callable, for a
    block class whose instances are: its stem, its four
    [nn.Sequential] stages, [avgpool] and [fc] are layers or callable
    modules, so by C22 its forward pass never raises [TypeError]. *)
Theorem ResNet_init_callable (block : BlockClass) `{!BlockLaws block} (layers : list nat)
    (num_classes : N) (net : Value) :
  (forall i p s, callable (bc_new block i p s VNone) = true) ->
  ResNet_init block layers num_classes = Ok net -> callable net = true.
Proof.
  intros Hnew Hnet. destruct layers as [|n0 [|n1 [|n2 [|n3 rest]]]];
    try (rewrite ResNet_init_short_layers in Hnet by (simpl; lia); discriminate).
  rewrite (ResNet_init_attrs block) in Hnet. injection Hnet as <-.
  cbn -[stage_blocks]. by rewrite !stage_blocks_callable.
Qed.

(** ** Witnesses *)

Lemma call_module_not_TypeError_witness :
  exists g net, script_globals = Ok g /\ ResNet50 = Ok net /\
    globals_callable g = true /\ callable net = true /\
    not_TypeError (call_module g 5 net [1; 3; 224; 224]%N).
Proof.
  do 2 eexists. split; [reflexivity|]. split; [reflexivity|].
  split; [vm_compute; reflexivity|]. split; [vm_compute; reflexivity|].
  apply call_module_not_TypeError; vm_compute; reflexivity.
Defined.

Lemma ResNet_init_callable_witness :
  exists net, ResNet18 = Ok net /\ callable net = true.
Proof.
  eexists. split; [reflexivity|].
  apply (ResNet_init_callable BasicBlock [2; 2; 2; 2] 1000); [apply BasicBlock_callable | reflexivity].
Defined.

