(* ===== verification/Depth.v ===== *)
(** * Depth: the number of weighted layers of every network

    [weighted_layers] counts the convolutions and linear
    layers on the main path of a module, the count a ResNet's name
    refers to. This file proves the depth formula for every stage list
    [layers] passed to [ResNet.__init__]: [2 + k * sum (max 1 layers[i])]
    over the first four entries, with [k = 2] for [BasicBlock] and
    [k = 3] for [Bottleneck]; the stem's convolution and [fc] make the
    2, and [_make_layers] builds [max 1 n] blocks per stage. *)

From stdpp Require Import base list strings sets.
From Stdlib Require Import NArith Lia.
From S2P Require Import Prelude Torch PyObject Blocks Stage ResNet.

Local Open Scope py_scope.
Local Open Scope string_scope.

(** The weighted layers (convolutions and linear layers) on the main
    path of a module, the count a ResNet's name refers to. *)
Fixpoint weighted_layers (v : Value) : nat :=
  match v with
  | VPrim (Conv2d _ _ _ _ _ _) | VPrim (Linear _ _) => 1
  | VSeq ms => sum_list (map weighted_layers ms)
  | VObj _ a =>
      sum_list (map (fun kv => if String.eqb kv.1 "downsample" then 0
                               else weighted_layers kv.2) a)
  | _ => 0
  end.


(** The weighted layers of one block each class builds. *)
Lemma BasicBlock_depth (i p s : N) : weighted_layers (bc_new BasicBlock i p s VNone) = 2.
Proof. reflexivity. Qed.

Lemma Bottleneck_depth (i p s : N) : weighted_layers (bc_new Bottleneck i p s VNone) = 3.
Proof. reflexivity. Qed.

Section DepthFormula.
Context (block : BlockClass) `{!BlockLaws block} (k : nat).
Hypothesis block_depth : forall i p s, weighted_layers (bc_new block i p s VNone) = k.

Lemma stage_depth (i planes s : N) (n : nat) :
  sum_list (map weighted_layers (stage_blocks block i planes s n)) = k * Nat.max 1 n.
Proof.
  unfold stage_blocks. simpl. rewrite block_depth, map_repeat, block_depth.
  assert (Hr : forall m, sum_list (repeat k m) = m * k).
  { induction m as [|m IH]; simpl; lia. }
  rewrite Hr. destruct n; cbn; nia.
Qed.

(** C24. The depth formula: every network [ResNet.__init__] returns for
    a block class of [k] weighted layers has
    [2 + k * (max 1 layers[0] + .. + max 1 layers[3])] weighted layers,
    for every stage list (entries after the fourth are ignored, and a
    stage size 0 counts as 1). *)
Theorem ResNet_init_depth (layers : list nat) (num_classes : N) (net : Value) :
  ResNet_init block layers num_classes = Ok net ->
  weighted_layers net = 2 + k * sum_list (map (Nat.max 1) (take 4 layers)).
Proof.
  intros Hnet. destruct layers as [|n0 [|n1 [|n2 [|n3 rest]]]];
    try (rewrite ResNet_init_short_layers in Hnet by (simpl; lia); discriminate).
  rewrite (ResNet_init_attrs block) in Hnet. injection Hnet as <-.
  cbn -[stage_blocks]. rewrite !stage_depth, take_0. simpl. lia.
Qed.

End DepthFormula.

(** ** Witness *)

Lemma ResNet_init_depth_witness :
  exists net, ResNet152 = Ok net /\ weighted_layers net = 152.
Proof.
  eexists. split; [reflexivity|].
  rewrite (ResNet_init_depth Bottleneck 3 Bottleneck_depth [3; 8; 36; 3] 1000); reflexivity.
Defined.
