(* ===== verification/Script.v ===== *)
(** * Script: the module's top level as a small-step machine

    src/resnet-study.py is a script: Python runs its top-level
    statements in order (lines 1-187), each reading and extending the
    module's global namespace. This file models those statements as
    data ([Stmt]: imports, [def], [class], assignments and bare
    expressions), their execution [exec] on the globals, and the run of
    the script both as a function ([run_script]) and as a step relation
    on configurations ([step], after the small-step semantics of IMP):
    a configuration is running with the remaining statements, has
    raised an exception, or is done. A call [f(args)] at the top level
    evaluates [f], then its arguments, then calls: the classes
    [BasicBlock], [Bottleneck] and [ResNet] build instances with their
    [__init__] of [Blocks.v] and [ResNet.v], and the presets
    [ResNet18] .. [ResNet152] evaluate their body, [ResNet(block,
    layers)], in the globals at call time. *)

From stdpp Require Import base list strings sets.
From Stdlib Require Import NArith Lia.
From S2P Require Import Prelude Torch PyObject Blocks Stage ResNet Callable.

Local Open Scope py_scope.
Local Open Scope string_scope.

(** ** Syntax *)

(** An argument of a top-level call: a name, an int or a list of ints. *)
Inductive Atom : Type :=
| AName (x : string)
| AInt (n : N)
| AList (ns : list nat).

Inductive Expr : Type :=
| EName (x : string)
| ECall (f : string) (args : list Atom).

Inductive Stmt : Type :=
| SImport (x : string) (m : string)
| SDef (f : string)
| SClass (c : string) (base : string)
| SAssign (x : string) (e : Expr)
| SExpr (e : Expr).

(** An evaluated argument. *)
Inductive Arg : Type :=
| AVal (v : Value)
| ALst (ns : list nat).

(** ** Evaluation *)

Definition eval_atom (g : Attrs) (a : Atom) : Result Arg :=
  match a with
  | AName x => v <- resolve_name g x ;; Ok (AVal v)
  | AInt n => Ok (AVal (VInt n))
  | AList ns => Ok (ALst ns)
  end.

(** Arguments are evaluated left to right. *)
Fixpoint eval_atoms (g : Attrs) (args : list Atom) : Result (list Arg) :=
  match args with
  | [] => Ok []
  | a :: args => v <- eval_atom g a ;; vs <- eval_atoms g args ;; Ok (v :: vs)
  end.

(** The class object passed to [ResNet] as [block]. *)
Definition block_class (v : Value) : Result BlockClass :=
  match v with
  | VFun c =>
      if String.eqb c "BasicBlock" then Ok BasicBlock
      else if String.eqb c "Bottleneck" then Ok Bottleneck
      else Err (TypeError "unsupported block")
  | _ => Err (TypeError "unsupported block")
  end.

(** A call of one of the script's classes: [__init__] with the
    defaults [stride=1], [downsample=None], [num_classes=1000]. *)
Definition construct (c : string) (args : list Arg) : Result Value :=
  if String.eqb c "BasicBlock" then
    match args with
    | [AVal (VInt i); AVal (VInt o)] => Ok (BasicBlock_init i o 1 VNone)
    | _ => Err (TypeError "unsupported arguments")
    end
  else if String.eqb c "Bottleneck" then
    match args with
    | [AVal (VInt i); AVal (VInt p)] => Ok (Bottleneck_init i p 1 VNone)
    | _ => Err (TypeError "unsupported arguments")
    end
  else if String.eqb c "ResNet" then
    match args with
    | [AVal b; ALst layers] => blk <- block_class b ;; ResNet_init blk layers 1000
    | [AVal b; ALst layers; AVal (VInt nc)] => blk <- block_class b ;; ResNet_init blk layers nc
    | _ => Err (TypeError "unsupported arguments")
    end
  else Err (TypeError "unsupported call").

(** The bodies of the presets (lines 170-183): [return ResNet(block,
    layers)]. *)
Definition preset_body (f : string) : option (string * list Atom) :=
  if String.eqb f "ResNet18" then Some ("ResNet", [AName "BasicBlock"; AList [2; 2; 2; 2]])
  else if String.eqb f "ResNet34" then Some ("ResNet", [AName "BasicBlock"; AList [3; 4; 6; 3]])
  else if String.eqb f "ResNet50" then Some ("ResNet", [AName "Bottleneck"; AList [3; 4; 6; 3]])
  else if String.eqb f "ResNet101" then Some ("ResNet", [AName "Bottleneck"; AList [3; 4; 23; 3]])
  else if String.eqb f "ResNet152" then Some ("ResNet", [AName "Bottleneck"; AList [3; 8; 36; 3]])
  else None.

Definition apply_class (cv : Value) (args : list Arg) : Result Value :=
  match cv with
  | VFun c => construct c args
  | _ => Err (TypeError "object is not callable")
  end.

(** [f(args)]: the callee, then the arguments, then the call. *)
Definition eval_call (g : Attrs) (f : string) (args : list Atom) : Result Value :=
  fv <- resolve_name g f ;;
  vs <- eval_atoms g args ;;
  match fv with
  | VFun name =>
      match preset_body name with
      | Some (c, body) =>
          match vs with
          | [] => cv <- resolve_name g c ;; bvs <- eval_atoms g body ;; apply_class cv bvs
          | _ => Err (TypeError "takes 0 positional arguments")
          end
      | None => apply_class fv vs
      end
  | _ => Err (TypeError "object is not callable")
  end.

Definition eval (g : Attrs) (e : Expr) : Result Value :=
  match e with
  | EName x => resolve_name g x
  | ECall f args => eval_call g f args
  end.

(** One top-level statement. [class C(nn.Module)] evaluates its base
    [nn] first; [def] and [class] bind the function or class object. *)
Definition exec (g : Attrs) (s : Stmt) : Result Attrs :=
  match s with
  | SImport x m => Ok (alist_set g x (VFun m))
  | SDef f => Ok (alist_set g f (VFun f))
  | SClass c base => _ <- resolve_name g base ;; Ok (alist_set g c (VFun c))
  | SAssign x e => v <- eval g e ;; Ok (alist_set g x v)
  | SExpr e => _ <- eval g e ;; Ok g
  end.

(** ** The script *)

(** [import torch], [import torch.nn as nn] (lines 1-2). *)
Definition script_imports : list Stmt := [SImport "torch" "torch"; SImport "nn" "torch.nn"].

(** [def conv3x3], [def conv1x1] (lines 4-8). *)
Definition script_helpers : list Stmt := [SDef "conv3x3"; SDef "conv1x1"].

(** [class BasicBlock(nn.Module)], [class Bottleneck(nn.Module)]
    (lines 10-81). *)
Definition script_blocks : list Stmt := [SClass "BasicBlock" "nn"; SClass "Bottleneck" "nn"].

(** The Bottleneck test (lines 84-85). *)
Definition test_myneck : list Stmt :=
  [SAssign "myneck" (ECall "Bottleneck" [AInt 64; AInt 64]); SExpr (EName "myneck")].

(** [class ResNet(nn.Module)] (lines 87-164). *)
Definition script_resnet : list Stmt := [SClass "ResNet" "nn"].

(** The ResNet test (lines 167-168). *)
Definition test_mynet50 : list Stmt :=
  [SAssign "mynet50" (ECall "ResNet" [AName "Bottleneck"; AList [3; 4; 6; 3]]);
   SExpr (EName "mynet50")].

(** [def ResNet18] .. [def ResNet152] (lines 170-183). *)
Definition script_presets : list Stmt :=
  [SDef "ResNet18"; SDef "ResNet34"; SDef "ResNet50"; SDef "ResNet101"; SDef "ResNet152"].

(** The preset test (lines 186-187). *)
Definition test_mynet101 : list Stmt :=
  [SAssign "mynet101" (ECall "ResNet101" []); SExpr (EName "mynet101")].

Definition script : list Stmt :=
  script_imports ++ script_helpers ++ script_blocks ++ test_myneck ++ script_resnet ++
  test_mynet50 ++ script_presets ++ test_mynet101.

(** ** Running the script *)

Fixpoint run_script (g : Attrs) (ss : list Stmt) : Result Attrs :=
  match ss with
  | [] => Ok g
  | s :: ss => g' <- exec g s ;; run_script g' ss
  end.

Inductive Config : Type :=
| Running (g : Attrs) (ss : list Stmt)
| Raised (e : PyErr) (g : Attrs)
| Done (g : Attrs).

Inductive step : Config -> Config -> Prop :=
| step_exec g s ss g' : exec g s = Ok g' -> step (Running g (s :: ss)) (Running g' ss)
| step_raise g s ss e : exec g s = Err e -> step (Running g (s :: ss)) (Raised e g)
| step_end g : step (Running g []) (Done g).

Definition cfg_globals (c : Config) : Attrs :=
  match c with Running g _ | Raised _ g | Done g => g end.

(** The name a statement binds. *)
Definition stmt_target (s : Stmt) : option string :=
  match s with
  | SImport x _ | SDef x | SClass x _ | SAssign x _ => Some x
  | SExpr _ => None
  end.

(** Whether [s] binds [nm]. *)
Definition binds_target (s : Stmt) (nm : string) : bool :=
  match stmt_target s with Some x => String.eqb nm x | None => false end.

(** ** Lemmas *)

Lemma exec_binds (g g' : Attrs) (s : Stmt) (nm : string) :
  exec g s = Ok g' ->
  binds g' nm = binds g nm || binds_target s nm.
Proof.
  destruct s; cbn [exec binds_target stmt_target]; intros H; py_inv;
    rewrite ?binds_alist_set; by rewrite ?orb_false_r.
Qed.

Lemma step_deterministic_aux (c c1 c2 : Config) : step c c1 -> step c c2 -> c1 = c2.
Proof. intros H1 H2. inversion H1; inversion H2; subst; congruence. Qed.

Lemma Done_irred (g : Attrs) : irred step (Done g).
Proof. intros c H. inversion H. Qed.

Lemma Raised_irred (e : PyErr) (g : Attrs) : irred step (Raised e g).
Proof. intros c H. inversion H. Qed.

Lemma run_script_star_Ok (g g' : Attrs) (ss : list Stmt) :
  run_script g ss = Ok g' -> star step (Running g ss) (Done g').
Proof.
  revert g. induction ss as [|s ss IH]; intros g H; cbn [run_script] in H.
  - injection H as <-. apply star_one. constructor.
  - destruct (exec g s) as [g1|e] eqn:E; cbn [rbind] in H; [|discriminate].
    eapply star_step; [by constructor|]. by apply IH.
Qed.

Lemma run_script_star_Err (g : Attrs) (ss : list Stmt) (e : PyErr) :
  run_script g ss = Err e -> exists g0, star step (Running g ss) (Raised e g0).
Proof.
  revert g. induction ss as [|s ss IH]; intros g H; cbn [run_script] in H; [discriminate|].
  destruct (exec g s) as [g1|e'] eqn:E; cbn [rbind] in H.
  - destruct (IH _ H) as [g0 Hs]. exists g0. eapply star_step; [by constructor|done].
  - injection H as ->. exists g. apply star_one. by constructor.
Qed.

(** Two runs from the same configuration to irreducible ones end in the
    same configuration. *)
Lemma star_irred_unique (c c1 c2 : Config) :
  star step c c1 -> star step c c2 -> irred step c1 -> irred step c2 -> c1 = c2.
Proof.
  intros H1. revert c2. induction H1 as [c|c c' c1 Hs H1 IH]; intros c2 H2 I1 I2.
  - inversion H2 as [|? c' ? Hs]; subst; [done|]. by apply I1 in Hs.
  - inversion H2 as [|? c'' ? Hs' H2']; subst; [by apply I2 in Hs|].
    rewrite (step_deterministic_aux _ _ _ Hs Hs') in IH. by apply IH.
Qed.

(** Every run ends: in [Done] or [Raised], as [run_script] says. *)
Lemma run_script_final (g : Attrs) (ss : list Stmt) :
  exists c, star step (Running g ss) c /\ irred step c /\
    match c with
    | Done g' => run_script g ss = Ok g'
    | Raised e _ => run_script g ss = Err e
    | Running _ _ => False
    end.
Proof.
  destruct (run_script g ss) as [g'|e] eqn:E.
  - exists (Done g'). split_and!; [by apply run_script_star_Ok | apply Done_irred | done].
  - destruct (run_script_star_Err _ _ _ E) as [g0 Hs].
    exists (Raised e g0). split_and!; [done | apply Raised_irred | done].
Qed.

(** In a deterministic run that reaches an irreducible configuration,
    every configuration on the way reaches it too. *)
Lemma star_irred_suffix (a b d : Config) :
  star step a b -> star step a d -> irred step d -> star step b d.
Proof.
  intros Hb. induction Hb as [a|a a' b Hs Hb IH]; intros Hd Id; [done|].
  inversion Hd as [|? a'' ? Hs' Hd']; subst; [by apply Id in Hs|].
  rewrite (step_deterministic_aux _ _ _ Hs Hs') in IH. by apply IH.
Qed.

(** The invariant of the script's run: the names [Bottleneck.forward]
    reads are unbound, and no remaining statement binds them. *)
Definition no_bottleneck_names (g : Attrs) : bool :=
  forallb (fun nm => negb (binds g nm)) bottleneck_names.

Definition script_inv (c : Config) : Prop :=
  no_bottleneck_names (cfg_globals c) = true /\
  match c with
  | Running _ ss => forallb (fun s => forallb (fun nm => negb (binds_target s nm)) bottleneck_names) ss = true
  | _ => True
  end.

Lemma script_inv_step (c c' : Config) : step c c' -> script_inv c -> script_inv c'.
Proof.
  intros Hs [Hg Hss]. inversion Hs as [g s ss g' E| g s ss e E| g]; subst;
    cbn [cfg_globals forallb] in *; [|done..].
  apply andb_prop in Hss as [Hs1 Hss]. split; [|done].
  unfold no_bottleneck_names in *. apply forallb_forall. intros nm Hnm.
  rewrite (exec_binds _ _ _ _ E).
  pose proof (proj1 (forallb_forall _ _) Hg nm Hnm) as H1.
  pose proof (proj1 (forallb_forall _ _) Hs1 nm Hnm) as H2. cbn beta in H1, H2.
  by destruct (binds g nm), (binds_target s nm).
Qed.

Lemma script_inv_star (c c' : Config) : star step c c' -> script_inv c -> script_inv c'.
Proof. induction 1; eauto using script_inv_step. Qed.

(** Unbound names resolve to [NameError], so such globals are callable
    in the sense of [Callable.v]. *)
Lemma no_bottleneck_names_callable (g : Attrs) :
  no_bottleneck_names g = true -> globals_callable g = true.
Proof.
  unfold no_bottleneck_names, globals_callable. intros H.
  apply forallb_forall. intros nm Hnm.
  pose proof (proj1 (forallb_forall _ _) H nm Hnm) as H1. cbn beta in H1.
  apply negb_true_iff in H1. by rewrite binds_lookup.
Qed.

(** ** The run of the script *)

(** Every run of a list of top-level statements ends, in exactly
    one final configuration: from every globals and statements, the
    step relation reaches an irreducible configuration, and every
    irreducible configuration it reaches is that one. *)
Lemma run_terminates (g : Attrs) (ss : list Stmt) :
  exists c, star step (Running g ss) c /\ irred step c /\
    forall c', star step (Running g ss) c' -> irred step c' -> c' = c.
Proof.
  destruct (run_script_final g ss) as (c & Hs & Ic & _).
  exists c. split_and!; [done | done |].
  intros c' Hs' Ic'. exact (star_irred_unique _ _ _ Hs' Hs Ic' Ic).
Qed.

(** The step relation and the function [run_script] agree: a run
    ends in [Done g'] exactly when [run_script] returns [g'], and raises
    [e] exactly when [run_script] raises [e]. *)
Lemma run_script_adequate (g g' : Attrs) (ss : list Stmt) (e : PyErr) :
  (star step (Running g ss) (Done g') <-> run_script g ss = Ok g') /\
  ((exists g0, star step (Running g ss) (Raised e g0)) <-> run_script g ss = Err e).
Proof.
  destruct (run_script_final g ss) as (c & Hs & Ic & Hc). split; split.
  - intros Hd. rewrite <- (star_irred_unique _ _ _ Hd Hs (Done_irred _) Ic) in Hc. exact Hc.
  - apply run_script_star_Ok.
  - intros [g0 Hr]. rewrite <- (star_irred_unique _ _ _ Hr Hs (Raised_irred _ _) Ic) in Hc.
    exact Hc.
  - apply run_script_star_Err.
Qed.

(** C25. The script runs to completion: its run reaches [Done] with the
    globals [script_globals] computes, and from every configuration the
    run passes through, that final configuration is still reached. *)
Theorem script_completes :
  exists g, script_globals = Ok g /\ star step (Running [] script) (Done g) /\
    forall c, star step (Running [] script) c -> star step c (Done g).
Proof.
  assert (E : run_script [] script = script_globals) by (vm_compute; reflexivity).
  destruct script_globals as [g|e] eqn:Eg; [|discriminate].
  exists g. split_and!; [done | by apply run_script_star_Ok |].
  intros c Hc. apply (star_irred_suffix _ _ _ Hc); [by apply run_script_star_Ok | apply Done_irred].
Qed.

(** C26. An invariant of every configuration the script reaches: the
    globals bind none of the names [Bottleneck.forward] reads, so they
    are callable globals (C22 applies), and a [Bottleneck] called at
    any point of the script raises [NameError] for [conv1]. *)
Theorem script_reachable_inv (c : Config) :
  star step (Running [] script) c ->
  no_bottleneck_names (cfg_globals c) = true /\ globals_callable (cfg_globals c) = true /\
  forall call self x, Bottleneck_forward call (cfg_globals c) self x = Err (NameError "conv1").
Proof.
  intros Hc. destruct (script_inv_star _ _ Hc) as [Hg _]; [split; reflexivity|].
  split_and!; [done | by apply no_bottleneck_names_callable |].
  intros call self x. unfold Bottleneck_forward.
  rewrite resolve_name_unbound; [done | | done].
  apply andb_prop in Hg as [Hg _]. by apply negb_true_iff in Hg.
Qed.

(** ** Witnesses *)

Lemma script_reachable_inv_witness :
  no_bottleneck_names (cfg_globals (Running [] script)) = true /\
  globals_callable (cfg_globals (Running [] script)) = true /\
  forall call self x,
    Bottleneck_forward call (cfg_globals (Running [] script)) self x = Err (NameError "conv1").
Proof. apply script_reachable_inv. apply star_refl. Defined.

